(** * Go test subsystem of Pants: options and coverage output directory

    Shallow embedding of [src/python/pants/backend/go/subsystems/gotest.py].

    The one method of [GoTestSubsystem], [coverage_output_dir], is three
    calls into the Python runtime: [str.replace], [str.format] and the
    [PurePath] constructor.  Their behaviour is embedded in the modules
    [PyStr], [Pathlib] and [PyFormat] below; the class itself is in
    [GoTest].  For the statements about hidden state the method is also
    given as a computation on the attributes of the object
    ([coverage_output_dir_method]).

    A Python [str] is modelled as a [string]: every character stands for
    the code point of the same number, so the model covers the strings
    whose code points are below 256. *)

From Stdlib Require Import String Ascii List Bool NArith Lia.
From stdpp Require Import base option gmap strings.
Import ListNotations.
Open Scope string_scope.

(** ** Outcome of a Python call *)

(** Exceptions that [str.format] raises on the templates modelled here. *)
Inductive PyError : Type :=
| ValueError (msg : string)
| KeyError (key : string)
| IndexError (index : N).

(** A call returns a value, raises, or leaves the fragment of Python that
    this development models ([Unmodelled]: nothing is said about what
    the interpreter does). *)
Inductive outcome (A : Type) : Type :=
| Ok (a : A)
| Raise (e : PyError)
| Unmodelled.
Arguments Ok {A} a.
Arguments Raise {A} e.
Arguments Unmodelled {A}.

#[global] Instance outcome_ret : MRet outcome := fun _ a => Ok a.
#[global] Instance outcome_bind : MBind outcome := fun _ _ f m =>
  match m with
  | Ok a => f a
  | Raise e => Raise e
  | Unmodelled => Unmodelled
  end.
#[global] Instance outcome_fmap : FMap outcome := fun _ _ f m =>
  match m with
  | Ok a => Ok (f a)
  | Raise e => Raise e
  | Unmodelled => Unmodelled
  end.

(** ** Python string methods *)

Module PyStr.

(** [c in s] for a one-character [c]. *)
Fixpoint contains (c : ascii) (s : string) : bool :=
  match s with
  | EmptyString => false
  | String a rest => Ascii.eqb a c || contains c rest
  end.

(** [s.replace(old, new)] for a non-empty [old]: scan from the left;
    where [old] starts, emit [new] and skip the rest of the match
    ([skip] counts the characters still to skip), so that matches do
    not overlap. *)
Fixpoint replace_from (old new : string) (skip : nat) (s : string) : string :=
  match s with
  | EmptyString => EmptyString
  | String c rest =>
      match skip with
      | S k => replace_from old new k rest
      | O =>
          if String.prefix old s
          then new +:+ replace_from old new (Nat.pred (String.length old)) rest
          else String c (replace_from old new 0 rest)
      end
  end.

(** [s.replace] with an empty [old]: [new] before every character and at the end. *)
Fixpoint interleave (new s : string) : string :=
  match s with
  | EmptyString => new
  | String c rest => new +:+ String c (interleave new rest)
  end.

Definition replace (s old new : string) : string :=
  match old with
  | EmptyString => interleave new s
  | String _ _ => replace_from old new 0 s
  end.

(** [s.split(sep)] for a one-character separator: never empty, and
    empty fields are kept. *)
Fixpoint split (sep : ascii) (s : string) : list string :=
  match s with
  | EmptyString => [EmptyString]
  | String c rest =>
      if Ascii.eqb c sep then EmptyString :: split sep rest
      else match split sep rest with
           | field :: fields => String c field :: fields
           | [] => [String c EmptyString]
           end
  end.

(** [s.lstrip(c)] for a one-character [c]. *)
Fixpoint lstrip (c : ascii) (s : string) : string :=
  match s with
  | EmptyString => EmptyString
  | String a rest => if Ascii.eqb a c then lstrip c rest else s
  end.

(** [sep.join(items)]. *)
Fixpoint join (sep : string) (items : list string) : string :=
  match items with
  | [] => EmptyString
  | [x] => x
  | x :: rest => x +:+ sep +:+ join sep rest
  end.

End PyStr.

(** ** pathlib.PurePath, POSIX flavour *)

Module Pathlib.

Definition sep : ascii := "/"%char.

(** A pure POSIX path: the drive is always empty and is left out;
    [parts] starts with the root when there is one, as [PurePath.parts]
    does. *)
Record PurePath : Type := mkPurePath {
  root : string;
  parts : list string
}.

(** [_PosixFlavour.splitroot]: the root and what follows it. *)
Definition splitroot (part : string) : string * string :=
  match part with
  | String c _ =>
      if Ascii.eqb c sep then
        let stripped_part := PyStr.lstrip sep part in
        if Nat.eqb (String.length part - String.length stripped_part) 2
        then ("//", stripped_part)
        else ("/", stripped_part)
      else (EmptyString, part)
  | EmptyString => (EmptyString, part)
  end.

(** The components of [rel] that [parse_parts] keeps: neither empty
    nor [.]. *)
Definition keep (x : string) : bool :=
  negb (String.eqb x EmptyString) && negb (String.eqb x ".").

Definition rel_parts (rel : string) : list string :=
  List.filter keep (PyStr.split sep rel).

(** The loop of [_Flavour.parse_parts] over [reversed(parts)]: empty
    arguments are skipped and the first rooted argument ends the loop.
    Returns the root and the components in path order. *)
Fixpoint parse_reversed (rparts : list string) : string * list string :=
  match rparts with
  | [] => (EmptyString, [])
  | part :: more =>
      if String.eqb part EmptyString then parse_reversed more
      else
        let '(rt, rel) := splitroot part in
        if String.eqb rt EmptyString then
          let '(rt', parsed) := parse_reversed more in
          (rt', (parsed ++ rel_parts rel)%list)
        else (rt, rel_parts rel)
  end.

Definition parse_parts (args : list string) : string * list string :=
  let '(rt, parsed) := parse_reversed (rev args) in
  (rt, if String.eqb rt EmptyString then parsed else rt :: parsed).

(** The constructor [PurePath] applied to string arguments. *)
Definition from_parts (args : list string) : PurePath :=
  let '(rt, parsed) := parse_parts args in
  {| root := rt; parts := parsed |}.

Definition format_parsed_parts (rt : string) (ps : list string) : string :=
  if String.eqb rt EmptyString then PyStr.join "/" ps
  else rt +:+ PyStr.join "/" (tl ps).

(** [str(path)]: the empty path prints as [.]. *)
Definition str (p : PurePath) : string :=
  let s := format_parsed_parts (root p) (parts p) in
  if String.eqb s EmptyString then "." else s.

End Pathlib.

(** ** str.format, for keyword arguments only *)

Module PyFormat.

(** The objects that [coverage_output_dir] passes to [format]. *)
Inductive PyVal : Type :=
| VStr (s : string)
| VPath (p : Pathlib.PurePath).

(** [format] with an empty format spec: a [str] is itself; [PurePath] has no
    [__format__] of its own, so [object.__format__] gives [str(obj)]. *)
Definition py_str (v : PyVal) : string :=
  match v with
  | VStr s => s
  | VPath p => Pathlib.str p
  end.

Definition PY_SSIZE_T_MAX : N := 9223372036854775807.

(** The decimal value of a digit. *)
Definition decimal (c : ascii) : option N :=
  let n := N_of_ascii c in
  if (48 <=? n)%N && (n <=? 57)%N then Some (n - 48)%N else None.

Inductive integer_result : Type :=
| NotInteger
| TooManyDigits
| Integer (n : N).

Fixpoint get_integer_from (accumulator : N) (s : string) : integer_result :=
  match s with
  | EmptyString => Integer accumulator
  | String c rest =>
      match decimal c with
      | None => NotInteger
      | Some digitval =>
          if ((PY_SSIZE_T_MAX - digitval) / 10 <? accumulator)%N
          then TooManyDigits
          else get_integer_from (accumulator * 10 + digitval)%N rest
      end
  end.

(** [get_integer]: the empty string is not an integer. *)
Definition get_integer (s : string) : integer_result :=
  match s with
  | EmptyString => NotInteger
  | String _ _ => get_integer_from 0 s
  end.

(** [field_name_split]: the argument name and the accessors after it.
    Inside a field, [format_from] stops at an opening bracket, so only
    the dot is looked for here. *)
Fixpoint field_name_split (field_name : string) : string * string :=
  match field_name with
  | EmptyString => (EmptyString, EmptyString)
  | String c rest =>
      if Ascii.eqb c "." then (EmptyString, field_name)
      else let '(first, accessors) := field_name_split rest in
           (String c first, accessors)
  end.

(** [get_field_object] with an empty [args] tuple: an omitted or
    numeric name indexes [args] and is out of range; any other name is
    looked up in [kwargs]. *)
Definition get_field_object (kwargs : gmap string PyVal) (first : string)
  : outcome PyVal :=
  match get_integer first with
  | TooManyDigits => Raise (ValueError "Too many decimal digits in format string")
  | Integer index => Raise (IndexError index)
  | NotInteger =>
      if String.eqb first EmptyString then Raise (IndexError 0)
      else match kwargs !! first with
           | Some obj => Ok obj
           | None => Raise (KeyError first)
           end
  end.

(** One replacement field without conversion and format spec.
    Attribute access on the object found is not modelled. *)
Definition render_field (kwargs : gmap string PyVal) (field_name : string)
  : outcome string :=
  let '(first, accessors) := field_name_split field_name in
  obj ← get_field_object kwargs first;
  if String.eqb accessors EmptyString then Ok (py_str obj) else Unmodelled.

(** Where the scan of the format string is: in literal text, or inside
    a replacement field with [acc] read of its name so far. *)
Inductive mode : Type :=
| Text
| Name (acc : string).

(** The markup iterator and the field parser, read from the left; the
    first failure ends the call.  A doubled brace is one literal brace.
    Conversions, format specs and index access (the characters [!],
    [:] and an opening bracket inside a field) are not modelled. *)
Fixpoint format_from (kwargs : gmap string PyVal) (m : mode) (s : string)
  : outcome string :=
  match m with
  | Text =>
      match s with
      | EmptyString => Ok EmptyString
      | String c rest =>
          if Ascii.eqb c "{" then
            match rest with
            | EmptyString =>
                Raise (ValueError "Single '{' encountered in format string")
            | String c' rest' =>
                if Ascii.eqb c' "{"
                then String "{" <$> format_from kwargs Text rest'
                else format_from kwargs (Name EmptyString) rest
            end
          else if Ascii.eqb c "}" then
            match rest with
            | EmptyString =>
                Raise (ValueError "Single '}' encountered in format string")
            | String c' rest' =>
                if Ascii.eqb c' "}"
                then String "}" <$> format_from kwargs Text rest'
                else Raise (ValueError "Single '}' encountered in format string")
            end
          else String c <$> format_from kwargs Text rest
      end
  | Name acc =>
      match s with
      | EmptyString => Raise (ValueError "expected '}' before end of string")
      | String c rest =>
          if Ascii.eqb c "{" then
            Raise (ValueError "unexpected '{' in field name")
          else if Ascii.eqb c "}" then
            value ← render_field kwargs acc;
            String.append value <$> format_from kwargs Text rest
          else if Ascii.eqb c "!" || Ascii.eqb c ":" || Ascii.eqb c "[" then
            Unmodelled
          else format_from kwargs (Name (acc +:+ String c EmptyString)) rest
      end
  end.

(** [template.format] applied to keyword arguments only. *)
Definition str_format (template : string) (kwargs : gmap string PyVal)
  : outcome string :=
  format_from kwargs Text template.

End PyFormat.

(** ** Option declarations *)

Module Options.

(** Modelled from the spec: [GoCoverMode] is declared in
    [pants.backend.go.util_rules.coverage], which is not part of the
    sources at hand.  The spec gives the closed enumeration SET, COUNT,
    ATOMIC, selected by the strings [set], [count] and [atomic]. *)
Inductive GoCoverMode : Type := SET | COUNT | ATOMIC.

Definition GoCoverMode_value (m : GoCoverMode) : string :=
  match m with
  | SET => "set"
  | COUNT => "count"
  | ATOMIC => "atomic"
  end.

Definition GoCoverMode_members : list GoCoverMode := [SET; COUNT; ATOMIC].

(** The option descriptors of [pants.option.option_types], each with
    what its declaration in the class passes to it. *)
Record EnumOption : Type := mkEnumOption {
  enum_flag_name : string;
  enum_default : GoCoverMode
}.
Record StrOption : Type := mkStrOption {
  str_default : string;
  str_advanced : bool
}.
Record BoolOption : Type := mkBoolOption { bool_default : bool }.
Record StrListOption : Type := mkStrListOption { strlist_default : list string }.
Record SkipOption : Type := mkSkipOption { skip_goal : string }.

(** Modelled from the spec: the class [SkipOption] is declared in
    [pants.option.option_types], which is not part of the sources at
    hand; the spec gives [skip = false] for a configuration with no
    option overridden. *)
Definition skip_default (o : SkipOption) : bool := false.

(** The error of the enumerated choice validator. *)
Record InvalidChoice : Type := mkInvalidChoice {
  offending_value : string;
  legal_values : list string
}.

(** Modelled from the spec: the validation of an enum option is done by
    the option parser of Pants, which is not part of the sources at
    hand.  Spec 4.1: given a raw value and the closed set of choices,
    return the matching member or fail with [InvalidChoice] naming the
    offending value and the full set of legal values. *)
Fixpoint find_choice (members : list GoCoverMode) (raw : string)
  : option GoCoverMode :=
  match members with
  | [] => None
  | m :: rest =>
      if String.eqb (GoCoverMode_value m) raw then Some m
      else find_choice rest raw
  end.

Definition validate_choice (raw : string) : InvalidChoice + GoCoverMode :=
  match find_choice GoCoverMode_members raw with
  | Some m => inr m
  | None =>
      inl {| offending_value := raw;
             legal_values := map GoCoverMode_value GoCoverMode_members |}
  end.

End Options.

(** ** The class GoTestSubsystem *)

Module GoTest.
Import Options.

(** Modelled from the spec: [DistDir] is declared in
    [pants.core.util_rules.distdir], which is not part of the sources
    at hand; the spec describes it as the distribution-directory root
    path, and the method reads its attribute [relpath]. *)
Record DistDir : Type := mkDistDir { relpath : Pathlib.PurePath }.

(** The class attributes: the declared options with their defaults. *)
Definition coverage_mode_option : EnumOption :=
  {| enum_flag_name := "--cover-mode"; enum_default := SET |}.

Definition _coverage_output_dir_option : StrOption :=
  {| str_default :=
       Pathlib.str
         (Pathlib.from_parts
            ["{distdir}"; "coverage"; "go"; "{import_path_escaped}"]);
     str_advanced := true |}.

Definition coverage_html_option : BoolOption := {| bool_default := true |}.

Definition coverage_include_patterns_option : StrListOption :=
  {| strlist_default := [] |}.

Definition skip_option : SkipOption := {| skip_goal := "test" |}.

Definition force_race_option : BoolOption := {| bool_default := false |}.
Definition force_msan_option : BoolOption := {| bool_default := false |}.
Definition force_asan_option : BoolOption := {| bool_default := false |}.

(** An instance: the value of every option. *)
Record GoTestSubsystem : Type := mkGoTestSubsystem {
  args : list string;
  coverage_mode : GoCoverMode;
  _coverage_output_dir : string;
  coverage_html : bool;
  coverage_include_patterns : list string;
  skip : bool;
  force_race : bool;
  force_msan : bool;
  force_asan : bool
}.

(** What the option-parsing layer supplies: the pass-through arguments
    and, for every other option, its value when the user has set it.
    The coverage mode comes as the string the user wrote. *)
Record RawOptions : Type := mkRawOptions {
  raw_args : list string;
  raw_cover_mode : option string;
  raw_coverage_output_dir : option string;
  raw_coverage_html : option bool;
  raw_coverage_include_patterns : option (list string);
  raw_skip : option bool;
  raw_force_race : option bool;
  raw_force_msan : option bool;
  raw_force_asan : option bool
}.

Definition no_overrides (passthrough_args : list string) : RawOptions :=
  {| raw_args := passthrough_args;
     raw_cover_mode := None;
     raw_coverage_output_dir := None;
     raw_coverage_html := None;
     raw_coverage_include_patterns := None;
     raw_skip := None;
     raw_force_race := None;
     raw_force_msan := None;
     raw_force_asan := None |}.

(** Modelled from the spec: the construction of a subsystem instance
    from option values is done by the options framework of Pants, which
    is not part of the sources at hand.  Spec 4.4 (a): all options are
    loaded once and the coverage mode is validated; a failure of the
    validator aborts the construction.  An option that is not set takes
    the default of its declaration. *)
Definition construct (raw : RawOptions) : InvalidChoice + GoTestSubsystem :=
  let validated :=
    match raw_cover_mode raw with
    | None => inr (enum_default coverage_mode_option)
    | Some value => validate_choice value
    end in
  match validated with
  | inl e => inl e
  | inr cover_mode =>
      inr {|
        args := raw_args raw;
        coverage_mode := cover_mode;
        _coverage_output_dir :=
          default (str_default _coverage_output_dir_option)
                  (raw_coverage_output_dir raw);
        coverage_html :=
          default (bool_default coverage_html_option) (raw_coverage_html raw);
        coverage_include_patterns :=
          default (strlist_default coverage_include_patterns_option)
                  (raw_coverage_include_patterns raw);
        skip := default (skip_default skip_option) (raw_skip raw);
        force_race :=
          default (bool_default force_race_option) (raw_force_race raw);
        force_msan :=
          default (bool_default force_msan_option) (raw_force_msan raw);
        force_asan :=
          default (bool_default force_asan_option) (raw_force_asan raw)
      |}
  end.

(** The keyword arguments of the call to [format]. *)
Definition format_kwargs (distdir : DistDir) (import_path_escaped : string)
  : gmap string PyFormat.PyVal :=
  <["distdir" := PyFormat.VPath (relpath distdir)]>
    (<["import_path_escaped" := PyFormat.VStr import_path_escaped]> ∅).

(** The method [coverage_output_dir]. *)
Definition coverage_output_dir
    (self : GoTestSubsystem) (distdir : DistDir) (import_path : string)
  : outcome Pathlib.PurePath :=
  let import_path_escaped := PyStr.replace import_path "/" "_" in
  formatted ← PyFormat.str_format (_coverage_output_dir self)
                (format_kwargs distdir import_path_escaped);
  Ok (Pathlib.from_parts [formatted]).

(** The per-target fields: [None] when the target has no opinion. *)
Record PerTargetOverride : Type := mkPerTargetOverride {
  race_detector_enabled : option bool;
  memory_sanitizer_enabled : option bool;
  address_sanitizer_enabled : option bool
}.

(** Modelled from the spec: the rule that combines a force flag of this
    class with the field of a target is in the test goal of the Go
    backend, which is not part of the sources at hand.  Spec 4.3: if
    the force flag is true the result is true, otherwise it is the
    per-target value. *)
Definition resolve (forceFlag perTargetValue : bool) : bool :=
  if forceFlag then true else perTargetValue.

(** Modelled from the spec: spec 4.4 (d), the resolver called three
    times, with the three force flags and the three per-target fields,
    a field without opinion counting as false. *)
Definition resolveSanitizers
    (self : GoTestSubsystem) (perTargetOverride : PerTargetOverride)
  : bool * bool * bool :=
  (resolve (force_race self)
           (default false (race_detector_enabled perTargetOverride)),
   resolve (force_msan self)
           (default false (memory_sanitizer_enabled perTargetOverride)),
   resolve (force_asan self)
           (default false (address_sanitizer_enabled perTargetOverride))).

End GoTest.

(** ** Vocabulary of the statements *)

Import PyFormat Options GoTest.

(** The escaping of one character of an import path. *)
Definition escape_char (c : ascii) : ascii :=
  if Ascii.eqb c "/" then "_"%char else c.

(** A brace, opening or closing, occurs in [s]. *)
Definition has_brace (s : string) : bool :=
  PyStr.contains "{" s || PyStr.contains "}" s.

(** A placeholder-shaped token occurs in [s]: an opening brace with a
    closing brace somewhere after it. *)
Fixpoint has_placeholder_token (s : string) : bool :=
  match s with
  | EmptyString => false
  | String c rest =>
      (Ascii.eqb c "{" && PyStr.contains "}" rest) || has_placeholder_token rest
  end.

(** A character that is read into a field name and stays in the
    argument name: none of the braces, [!], [:], the opening bracket and
    the dot. *)
Definition name_char (c : ascii) : bool :=
  negb (Ascii.eqb c "{" || Ascii.eqb c "}" || Ascii.eqb c "!"
        || Ascii.eqb c ":" || Ascii.eqb c "[" || Ascii.eqb c ".").

Fixpoint name_chars (s : string) : bool :=
  match s with
  | EmptyString => true
  | String c rest => name_char c && name_chars rest
  end.

(** A keyword name: not empty, not starting with a digit, made of name
    characters. *)
Definition plain_name (name : string) : bool :=
  match name with
  | EmptyString => false
  | String c _ =>
      match decimal c with
      | Some _ => false
      | None => name_chars name
      end
  end.

(** An instance with the given coverage output template and every other
    option at its default. *)
Definition with_template (template : string) : GoTestSubsystem :=
  {| args := [];
     coverage_mode := enum_default coverage_mode_option;
     _coverage_output_dir := template;
     coverage_html := bool_default coverage_html_option;
     coverage_include_patterns := strlist_default coverage_include_patterns_option;
     skip := skip_default skip_option;
     force_race := bool_default force_race_option;
     force_msan := bool_default force_msan_option;
     force_asan := bool_default force_asan_option |}.

(** A component of a path in normal form: not empty, not a dot, without
    a slash. *)
Definition component (x : string) : bool :=
  Pathlib.keep x && negb (PyStr.contains Pathlib.sep x).

(** A path in the normal form that the constructor produces: the root is
    empty, one slash or two slashes; a root is the first part; every
    other part is a component. *)
Definition normalised (p : Pathlib.PurePath) : bool :=
  if String.eqb (Pathlib.root p) EmptyString
  then forallb component (Pathlib.parts p)
  else (String.eqb (Pathlib.root p) "/" || String.eqb (Pathlib.root p) "//")
       && match Pathlib.parts p with
          | anchor :: components =>
              String.eqb anchor (Pathlib.root p) && forallb component components
          | [] => false
          end.

(** A path without root. *)
Definition relative (p : Pathlib.PurePath) : bool :=
  String.eqb (Pathlib.root p) EmptyString.

(** A string of decimal digits. *)
Fixpoint all_digits (s : string) : bool :=
  match s with
  | EmptyString => true
  | String c rest =>
      match decimal c with
      | Some _ => all_digits rest
      | None => false
      end
  end.

(** The escaping as the help text of the option words it: slashes
    converted to underscores, one character at a time. *)
Fixpoint slashes_to_underscores (s : string) : string :=
  match s with
  | EmptyString => EmptyString
  | String c rest => String (escape_char c) (slashes_to_underscores rest)
  end.

(** The number that a string of decimal digits writes, continuing from
    [accumulator]. *)
Fixpoint decimal_value_from (accumulator : N) (s : string) : N :=
  match s with
  | EmptyString => accumulator
  | String c rest =>
      match decimal c with
      | Some digitval => decimal_value_from (accumulator * 10 + digitval)%N rest
      | None => accumulator
      end
  end.

Definition decimal_value (s : string) : N := decimal_value_from 0 s.

(** ** The method as a computation on the attributes of the object

    To speak about hidden state, the method is also embedded with the
    state it could touch made explicit: the attributes of [self], as a
    store from attribute names to values.  A computation takes the store
    and returns its outcome with the store it leaves. *)










(** * Facts about the string methods *)

Lemma prefix_one_char (c a : ascii) (rest : string) :
  String.prefix (String c EmptyString) (String a rest) = Ascii.eqb a c.
Proof.
  simpl. destruct (ascii_dec c a) as [->|Hne].
  - rewrite Ascii.eqb_refl. now destruct rest.
  - symmetry. apply Ascii.eqb_neq. congruence.
Qed.

Lemma append_cons (c : ascii) (s t : string) :
  String c s +:+ t = String c (s +:+ t).
Proof. reflexivity. Qed.

Lemma append_empty_l (t : string) : EmptyString +:+ t = t.
Proof. reflexivity. Qed.

Lemma append_empty_r (s : string) : s +:+ EmptyString = s.
Proof. induction s as [|c s IH]; [reflexivity|]. now rewrite append_cons, IH. Qed.

Lemma append_assoc (s t u : string) : (s +:+ t) +:+ u = s +:+ (t +:+ u).
Proof.
  induction s as [|c s IH]; [reflexivity|]. now rewrite !append_cons, IH.
Qed.

Lemma replace_one_char (c d : ascii) (s : string) :
  list_ascii_of_string
    (PyStr.replace s (String c EmptyString) (String d EmptyString))
  = List.map (fun a => if Ascii.eqb a c then d else a) (list_ascii_of_string s).
Proof.
  unfold PyStr.replace.
  induction s as [|a rest IH]; [reflexivity|].
  cbn [PyStr.replace_from list_ascii_of_string List.map].
  rewrite prefix_one_char.
  destruct (Ascii.eqb a c); cbn [String.length Nat.pred];
    rewrite ?append_cons, ?append_empty_l; cbn [list_ascii_of_string];
    now rewrite IH.
Qed.

Lemma replace_absent (c d : ascii) (s : string) :
  PyStr.contains c s = false ->
  PyStr.replace s (String c EmptyString) (String d EmptyString) = s.
Proof.
  unfold PyStr.replace.
  induction s as [|a rest IH]; [reflexivity|].
  cbn [PyStr.replace_from PyStr.contains]. rewrite prefix_one_char.
  intros [Ha Hrest]%orb_false_iff. rewrite Ha. now rewrite IH.
Qed.

Lemma replace_removes (c d : ascii) (s : string) :
  c <> d ->
  PyStr.contains c
    (PyStr.replace s (String c EmptyString) (String d EmptyString)) = false.
Proof.
  intros Hcd. unfold PyStr.replace.
  induction s as [|a rest IH]; [reflexivity|].
  cbn [PyStr.replace_from]. rewrite prefix_one_char.
  destruct (Ascii.eqb a c) eqn:Ha; cbn [String.length Nat.pred];
    rewrite ?append_cons, ?append_empty_l; cbn [PyStr.contains].
  - rewrite IH. replace (Ascii.eqb d c) with false; [reflexivity|].
    symmetry. apply Ascii.eqb_neq. congruence.
  - now rewrite Ha, IH.
Qed.

(** * Facts about str.format *)

Lemma fmap_append_empty (x : outcome string) :
  String.append EmptyString <$> x = x.
Proof. now destruct x. Qed.

Lemma fmap_cons_append (c : ascii) (o : string) (x : outcome string) :
  String c <$> (String.append o <$> x) = String.append (String c o) <$> x.
Proof. now destruct x. Qed.

Lemma fmap_append_append (o1 o2 : string) (x : outcome string) :
  String.append o1 <$> (String.append o2 <$> x) = String.append (o1 +:+ o2) <$> x.
Proof. destruct x; cbn; [|reflexivity..]. now rewrite append_assoc. Qed.

Lemma fmap_Ok_inv {A B} (f : A -> B) (x : outcome A) (b : B) :
  f <$> x = Ok b -> exists a, x = Ok a /\ b = f a.
Proof. destruct x; cbn; intros H; inversion H; eauto. Qed.

Section FormatFacts.
Variable kwargs : gmap string PyVal.

(** A template that expands without error expands the same way in
    front of any continuation: the scan is back in literal text at its
    end. *)
Lemma format_from_app_bounded (n : nat) :
  forall (pre : string), String.length pre <= n ->
  forall (m : mode) (rest o : string),
    format_from kwargs m pre = Ok o ->
    format_from kwargs m (pre +:+ rest)
    = String.append o <$> format_from kwargs Text rest.
Proof.
  induction n as [|n IH]; intros pre Hlen m rest o Hpre.
  - destruct pre; [|cbn in Hlen; lia].
    destruct m; cbn in Hpre; [|discriminate].
    injection Hpre as <-. now rewrite append_empty_l, fmap_append_empty.
  - destruct pre as [|c pre].
    { destruct m; cbn in Hpre; [|discriminate].
      injection Hpre as <-. now rewrite append_empty_l, fmap_append_empty. }
    cbn [String.length] in Hlen. rewrite append_cons.
    destruct m as [|acc]; cbn [format_from] in Hpre |- *.
    + destruct (Ascii.eqb c "{").
      { destruct pre as [|c' pre']; [discriminate|].
        rewrite append_cons. cbn [String.length] in Hlen.
        destruct (Ascii.eqb c' "{").
        - apply fmap_Ok_inv in Hpre as (a & Ha & ->).
          rewrite (IH pre' ltac:(lia) Text rest a Ha).
          now rewrite fmap_cons_append.
        - rewrite <- append_cons.
          apply IH; [cbn; lia|assumption]. }
      destruct (Ascii.eqb c "}").
      { destruct pre as [|c' pre']; [discriminate|].
        rewrite append_cons. cbn [String.length] in Hlen.
        destruct (Ascii.eqb c' "}"); [|discriminate].
        apply fmap_Ok_inv in Hpre as (a & Ha & ->).
        rewrite (IH pre' ltac:(lia) Text rest a Ha).
        now rewrite fmap_cons_append. }
      apply fmap_Ok_inv in Hpre as (a & Ha & ->).
      rewrite (IH pre ltac:(lia) Text rest a Ha).
      now rewrite fmap_cons_append.
    + destruct (Ascii.eqb c "{"); [discriminate|].
      destruct (Ascii.eqb c "}").
      { destruct (render_field kwargs acc) as [value| |]; cbn in Hpre |- *;
          [|discriminate..].
        apply fmap_Ok_inv in Hpre as (a & Ha & ->).
        rewrite (IH pre ltac:(lia) Text rest a Ha).
        now rewrite fmap_append_append. }
      destruct (Ascii.eqb c "!" || Ascii.eqb c ":" || Ascii.eqb c "[");
        [discriminate|].
      apply IH; [lia|assumption].
Qed.

Lemma str_format_app (pre rest o : string) :
  str_format pre kwargs = Ok o ->
  str_format (pre +:+ rest) kwargs
  = String.append o <$> str_format rest kwargs.
Proof.
  unfold str_format. apply (format_from_app_bounded (String.length pre)). lia.
Qed.

End FormatFacts.

Section FieldFacts.
Variable kwargs : gmap string PyVal.

Lemma name_char_inv (c : ascii) :
  name_char c = true ->
  Ascii.eqb c "{" = false /\ Ascii.eqb c "}" = false /\
  Ascii.eqb c "!" = false /\ Ascii.eqb c ":" = false /\
  Ascii.eqb c "[" = false /\ Ascii.eqb c "." = false.
Proof.
  unfold name_char. intros H%negb_true_iff.
  repeat (apply orb_false_iff in H as [H ?]). tauto.
Qed.

(** Inside a field, name characters are collected up to the closing
    brace, where the field is rendered. *)
Lemma format_from_name (name : string) :
  name_chars name = true ->
  forall (acc post : string),
    format_from kwargs (Name acc) (name +:+ String "}" post)
    = value ← render_field kwargs (acc +:+ name);
      String.append value <$> format_from kwargs Text post.
Proof.
  induction name as [|c name IH]; intros Hname acc post.
  - now rewrite append_empty_l, append_empty_r.
  - cbn [name_chars] in Hname. apply andb_true_iff in Hname as [Hc Hname].
    apply name_char_inv in Hc as (H1 & H2 & H3 & H4 & H5 & _).
    rewrite append_cons. cbn [format_from].
    rewrite H1, H2, H3, H4, H5. cbn [orb].
    rewrite (IH Hname). now rewrite append_assoc.
Qed.

Lemma field_name_split_name_chars (name : string) :
  name_chars name = true -> field_name_split name = (name, EmptyString).
Proof.
  induction name as [|c name IH]; [reflexivity|].
  cbn [name_chars field_name_split]. intros [Hc Hname]%andb_true_iff.
  apply name_char_inv in Hc as (_ & _ & _ & _ & _ & ->).
  now rewrite (IH Hname).
Qed.

Lemma get_integer_plain (name : string) :
  plain_name name = true -> get_integer name = NotInteger.
Proof.
  destruct name as [|c name]; [discriminate|].
  cbn [plain_name get_integer get_integer_from].
  now destruct (decimal c).
Qed.

Lemma render_field_plain (name : string) :
  plain_name name = true ->
  render_field kwargs name
  = match kwargs !! name with
    | Some obj => Ok (py_str obj)
    | None => Raise (KeyError name)
    end.
Proof.
  intros Hplain. unfold render_field, get_field_object.
  assert (Hchars : name_chars name = true).
  { destruct name as [|c name]; [discriminate|].
    cbn [plain_name] in Hplain. now destruct (decimal c). }
  rewrite (field_name_split_name_chars name Hchars).
  rewrite (get_integer_plain name Hplain).
  destruct name as [|c name]; [discriminate|].
  cbn [String.eqb]. now destruct (kwargs !! String c name).
Qed.

(** A placeholder with a plain name, after a template that expands
    without error. *)
Lemma str_format_placeholder (pre name post o : string) :
  str_format pre kwargs = Ok o ->
  plain_name name = true ->
  str_format (pre +:+ String "{" (name +:+ String "}" post)) kwargs
  = match kwargs !! name with
    | Some obj =>
        (fun expanded => o +:+ py_str obj +:+ expanded)
          <$> str_format post kwargs
    | None => Raise (KeyError name)
    end.
Proof.
  intros Hpre Hplain.
  rewrite (str_format_app kwargs pre _ o Hpre).
  assert (Hchars : name_chars name = true).
  { destruct name as [|c name]; [discriminate|].
    cbn [plain_name] in Hplain. now destruct (decimal c). }
  unfold str_format at 1.
  destruct name as [|c name]; [discriminate|].
  cbn [format_from]. rewrite append_cons.
  assert (Hc : Ascii.eqb c "{" = false).
  { cbn [name_chars] in Hchars. apply andb_true_iff in Hchars as [Hc _].
    now apply name_char_inv in Hc. }
  rewrite Hc. rewrite <- append_cons.
  rewrite (format_from_name _ Hchars), append_empty_l.
  rewrite (render_field_plain _ Hplain).
  destruct (kwargs !! String c name); [|reflexivity].
  cbn. fold (str_format post kwargs). now destruct (str_format post kwargs).
Qed.

(** Text without braces is copied. *)
Lemma str_format_no_brace (s : string) :
  has_brace s = false -> str_format s kwargs = Ok s.
Proof.
  unfold has_brace, str_format.
  induction s as [|c s IH]; [reflexivity|].
  cbn [PyStr.contains format_from].
  intros [[Ho Hos]%orb_false_iff [Hc Hcs]%orb_false_iff]%orb_false_iff.
  rewrite Ho, Hc, IH; [reflexivity|]. now rewrite Hos, Hcs.
Qed.

End FieldFacts.

(** * Facts about paths *)

Lemma split_not_nil (sep : ascii) (s : string) : PyStr.split sep s <> [].
Proof.
  destruct s as [|c s]; cbn; [discriminate|].
  destruct (Ascii.eqb c sep); [discriminate|].
  destruct (PyStr.split sep s); discriminate.
Qed.

Lemma split_absent (sep : ascii) (s : string) :
  PyStr.contains sep s = false -> PyStr.split sep s = [s].
Proof.
  induction s as [|c s IH]; [reflexivity|].
  cbn [PyStr.contains PyStr.split]. intros [Hc Hs]%orb_false_iff.
  now rewrite Hc, (IH Hs).
Qed.

Lemma split_app_sep (sep : ascii) (a b : string) :
  PyStr.split sep (a +:+ String sep b)
  = (PyStr.split sep a ++ PyStr.split sep b)%list.
Proof.
  induction a as [|c a IH].
  - rewrite append_empty_l. cbn [PyStr.split]. now rewrite Ascii.eqb_refl.
  - rewrite append_cons. cbn [PyStr.split]. rewrite IH.
    destruct (Ascii.eqb c sep); [reflexivity|].
    pose proof (split_not_nil sep a) as Hne.
    destruct (PyStr.split sep a); [congruence|reflexivity].
Qed.

Lemma lstrip_absent (sep : ascii) (s : string) :
  PyStr.contains sep s = false -> PyStr.lstrip sep s = s.
Proof.
  destruct s as [|c s]; [reflexivity|].
  cbn [PyStr.contains PyStr.lstrip]. now intros [-> _]%orb_false_iff.
Qed.

Lemma lstrip_app_sep (sep : ascii) (x e : string) :
  PyStr.contains sep e = false ->
  PyStr.lstrip sep (x +:+ String sep e) = e
  \/ exists y, PyStr.lstrip sep (x +:+ String sep e) = y +:+ String sep e.
Proof.
  intros He. induction x as [|c x IH].
  - left. rewrite append_empty_l. cbn [PyStr.lstrip].
    rewrite Ascii.eqb_refl. now apply lstrip_absent.
  - rewrite append_cons. cbn [PyStr.lstrip].
    destruct (Ascii.eqb c sep); [exact IH|].
    right. exists (String c x). now rewrite append_cons.
Qed.

Lemma rel_parts_last (rel e : string) :
  PyStr.contains Pathlib.sep e = false ->
  Pathlib.keep e = true ->
  rel = e \/ (exists y, rel = y +:+ String Pathlib.sep e) ->
  exists front, Pathlib.rel_parts rel = (front ++ [e])%list.
Proof.
  intros He Hkeep [->|[y ->]]; unfold Pathlib.rel_parts.
  - exists []. rewrite (split_absent _ _ He). cbn. now rewrite Hkeep.
  - exists (List.filter Pathlib.keep (PyStr.split Pathlib.sep y)).
    rewrite split_app_sep, List.filter_app, (split_absent _ _ He).
    cbn. now rewrite Hkeep.
Qed.

(** The last component of a path built from one string that ends with a
    slash and a component. *)
Lemma from_parts_last (x e : string) :
  PyStr.contains Pathlib.sep e = false ->
  Pathlib.keep e = true ->
  exists front,
    Pathlib.parts (Pathlib.from_parts [x +:+ String Pathlib.sep e])
    = (front ++ [e])%list.
Proof.
  intros He Hkeep.
  unfold Pathlib.from_parts, Pathlib.parse_parts.
  cbn [rev app Pathlib.parse_reversed].
  assert (Hne : String.eqb (x +:+ String Pathlib.sep e) EmptyString = false).
  { now destruct x. }
  rewrite Hne. unfold Pathlib.splitroot.
  destruct (x +:+ String Pathlib.sep e) as [|c s] eqn:Hs; [discriminate|].
  rewrite <- Hs. clear Hne.
  destruct (Ascii.eqb c Pathlib.sep).
  - destruct (rel_parts_last _ e He Hkeep (lstrip_app_sep Pathlib.sep x e He))
      as [front Hfront].
    destruct (Nat.eqb _ 2); cbn; rewrite Hfront.
    + now exists ("//" :: front).
    + now exists ("/" :: front).
  - destruct (rel_parts_last (x +:+ String Pathlib.sep e) e He Hkeep
                ltac:(right; now exists x)) as [front Hfront].
    cbn. rewrite Hfront. now exists front.
Qed.

(** * Facts about the method *)

Lemma format_kwargs_distdir (distdir : DistDir) (escaped : string) :
  format_kwargs distdir escaped !! "distdir" = Some (VPath (relpath distdir)).
Proof. unfold format_kwargs. apply lookup_insert_eq. Qed.

Lemma format_kwargs_import_path_escaped (distdir : DistDir) (escaped : string) :
  format_kwargs distdir escaped !! "import_path_escaped" = Some (VStr escaped).
Proof.
  unfold format_kwargs.
  rewrite lookup_insert_ne by discriminate. apply lookup_insert_eq.
Qed.

Lemma format_kwargs_other (distdir : DistDir) (escaped name : string) :
  name <> "distdir" -> name <> "import_path_escaped" ->
  format_kwargs distdir escaped !! name = None.
Proof.
  intros H1 H2. unfold format_kwargs.
  rewrite !lookup_insert_ne by congruence. apply lookup_empty.
Qed.

(** The default template, as the class computes it. *)
Lemma default_template :
  str_default _coverage_output_dir_option
  = "{distdir}/coverage/go/{import_path_escaped}".
Proof. reflexivity. Qed.

(** The call with the default template, for any distdir and import
    path. *)
Lemma coverage_output_dir_default
    (self : GoTestSubsystem) (distdir : DistDir) (import_path : string) :
  _coverage_output_dir self = str_default _coverage_output_dir_option ->
  coverage_output_dir self distdir import_path
  = Ok (Pathlib.from_parts
          [(Pathlib.str (relpath distdir) +:+ "/coverage/go")
           +:+ String Pathlib.sep (PyStr.replace import_path "/" "_")]).
Proof.
  intros Htemplate. unfold coverage_output_dir.
  rewrite Htemplate, default_template.
  set (escaped := PyStr.replace import_path "/" "_").
  set (kwargs := format_kwargs distdir escaped).
  assert (H2 : str_format "/coverage/go/{import_path_escaped}" kwargs
               = Ok ("/coverage/go/" +:+ escaped)).
  { etransitivity;
      [exact (str_format_placeholder kwargs "/coverage/go/"
                "import_path_escaped" EmptyString "/coverage/go/"
                eq_refl eq_refl)|].
    cbn. now rewrite append_empty_r. }
  assert (H1 : str_format "{distdir}/coverage/go/{import_path_escaped}" kwargs
               = Ok (Pathlib.str (relpath distdir)
                     +:+ ("/coverage/go/" +:+ escaped))).
  { etransitivity;
      [exact (str_format_placeholder kwargs EmptyString "distdir"
                "/coverage/go/{import_path_escaped}" EmptyString
                eq_refl eq_refl)|].
    rewrite H2. reflexivity. }
  rewrite H1. cbn. do 2 f_equal. f_equal.
  now rewrite append_assoc.
Qed.

Lemma replace_slashes_to_underscores (s : string) :
  PyStr.replace s "/" "_" = slashes_to_underscores s.
Proof.
  unfold PyStr.replace. induction s as [|c rest IH]; [reflexivity|].
  cbn [PyStr.replace_from slashes_to_underscores]. rewrite prefix_one_char.
  unfold escape_char.
  destruct (Ascii.eqb c "/"); cbn [String.length Nat.pred];
    rewrite ?append_cons, ?append_empty_l; now rewrite IH.
Qed.


(** * The claims *)

(** C1 (as amended).  A placeholder whose name is a plain keyword name
    other than [distdir] and [import_path_escaped] is not passed through:
    when the template expands without error up to the placeholder, the
    call of [coverage_output_dir] raises [KeyError] with that name. *)
Theorem unknown_placeholder_raises_KeyError
    (self : GoTestSubsystem) (distdir : DistDir) (import_path : string)
    (pre name post expanded : string) :
  _coverage_output_dir self = pre +:+ String "{" (name +:+ String "}" post) ->
  str_format pre
    (format_kwargs distdir (PyStr.replace import_path "/" "_")) = Ok expanded ->
  plain_name name = true ->
  name <> "distdir" ->
  name <> "import_path_escaped" ->
  coverage_output_dir self distdir import_path = Raise (KeyError name).
Proof.
  intros Htemplate Hpre Hplain Hd Hi. unfold coverage_output_dir.
  rewrite Htemplate, (str_format_placeholder _ pre name post expanded Hpre Hplain).
  now rewrite (format_kwargs_other _ _ name Hd Hi).
Qed.

Lemma unknown_placeholder_raises_KeyError_witness :
  coverage_output_dir (with_template "{distdir}/{unknown}")
    (mkDistDir (Pathlib.from_parts ["d"])) "example.com/foo"
  = Raise (KeyError "unknown").
Proof.
  apply (unknown_placeholder_raises_KeyError
           (with_template "{distdir}/{unknown}")
           (mkDistDir (Pathlib.from_parts ["d"])) "example.com/foo"
           "{distdir}/" "unknown" EmptyString "d/").
  - reflexivity.
  - vm_compute. reflexivity.
  - reflexivity.
  - discriminate.
  - discriminate.
Defined.

(** C1 (as stated) fails: the expansion of [{distdir}/{unknown}] with
    [distdir] bound to [d] is not [d/{unknown}]; it raises [KeyError]. *)
Lemma unknown_placeholder_not_passed_through :
  str_format "{distdir}/{unknown}" (<["distdir" := VStr "d"]> ∅)
    = Raise (KeyError "unknown")
  /\ str_format "{distdir}/{unknown}" (<["distdir" := VStr "d"]> ∅)
    <> Ok "d/{unknown}"
  /\ coverage_output_dir (with_template "{distdir}/{unknown}")
       (mkDistDir (Pathlib.from_parts ["d"])) "example.com/foo"
     <> Ok (Pathlib.from_parts ["d/{unknown}"]).
Proof.
  assert (H : str_format "{distdir}/{unknown}" (<["distdir" := VStr "d"]> ∅)
              = Raise (KeyError "unknown")) by (vm_compute; reflexivity).
  split; [exact H|]. split.
  - rewrite H. discriminate.
  - assert (H' : coverage_output_dir (with_template "{distdir}/{unknown}")
                   (mkDistDir (Pathlib.from_parts ["d"])) "example.com/foo"
                 = Raise (KeyError "unknown")) by (vm_compute; reflexivity).
    rewrite H'. discriminate.
Qed.

(** C2.  With the default template, the call with the distdir [dist]
    and the import path [example.com/foo/bar] returns exactly the path
    [dist/coverage/go/example.com_foo_bar]. *)
Theorem coverage_output_dir_default_example (self : GoTestSubsystem) :
  _coverage_output_dir self = str_default _coverage_output_dir_option ->
  exists (path : Pathlib.PurePath),
    coverage_output_dir self (mkDistDir (Pathlib.from_parts ["dist"]))
      "example.com/foo/bar" = Ok path
    /\ path = Pathlib.from_parts ["dist/coverage/go/example.com_foo_bar"]
    /\ Pathlib.parts path = ["dist"; "coverage"; "go"; "example.com_foo_bar"]
    /\ Pathlib.str path = "dist/coverage/go/example.com_foo_bar".
Proof.
  intros Htemplate. eexists. split.
  - unfold coverage_output_dir. rewrite Htemplate. vm_compute. reflexivity.
  - repeat split; reflexivity.
Qed.

Lemma coverage_output_dir_default_example_witness :
  exists (self : GoTestSubsystem) (path : Pathlib.PurePath),
    construct (no_overrides []) = inr self
    /\ coverage_output_dir self (mkDistDir (Pathlib.from_parts ["dist"]))
         "example.com/foo/bar" = Ok path
    /\ Pathlib.str path = "dist/coverage/go/example.com_foo_bar".
Proof.
  destruct (coverage_output_dir_default_example
              (with_template (str_default _coverage_output_dir_option))
              eq_refl) as (path & Hcall & _ & _ & Hstr).
  exists (with_template (str_default _coverage_output_dir_option)), path.
  split; [reflexivity|]. split; [exact Hcall|exact Hstr].
Defined.

(** C3.  The override resolution is the disjunction of the force flag
    and the per-target value: true when the flag is true, the per-target
    value otherwise; a target without opinion counts as false; race,
    memory sanitizer and address sanitizer are resolved by the same
    function. *)
Theorem resolve_is_force_or_target
    (self : GoTestSubsystem) (perTargetOverride : PerTargetOverride)
    (forceFlag perTargetValue : bool) :
  resolve true perTargetValue = true
  /\ resolve false perTargetValue = perTargetValue
  /\ resolve forceFlag perTargetValue = forceFlag || perTargetValue
  /\ resolveSanitizers self perTargetOverride
     = (force_race self
          || default false (race_detector_enabled perTargetOverride),
        force_msan self
          || default false (memory_sanitizer_enabled perTargetOverride),
        force_asan self
          || default false (address_sanitizer_enabled perTargetOverride))
  /\ resolveSanitizers self (mkPerTargetOverride None None None)
     = (force_race self, force_msan self, force_asan self).
Proof.
  split; [reflexivity|]. split; [reflexivity|].
  split; [now destruct forceFlag|]. split.
  - unfold resolveSanitizers, resolve.
    now destruct (force_race self), (force_msan self), (force_asan self).
  - unfold resolveSanitizers, resolve. cbn.
    now destruct (force_race self), (force_msan self), (force_asan self).
Qed.

(** C4.  The escaping that [coverage_output_dir] performs replaces every
    slash of the import path by an underscore and changes nothing else:
    for every template the method expands it with
    [import_path_escaped] bound to the import path with slashes
    converted to underscores, character by character (same length, no
    slash left); with the default template that string follows
    [/coverage/go/] in the path returned.  For an import path without a
    slash the value bound is the import path itself. *)
Theorem escaping_replaces_every_slash :
  (forall (self : GoTestSubsystem) (distdir : DistDir) (import_path : string),
      coverage_output_dir self distdir import_path
      = (formatted ← str_format (_coverage_output_dir self)
                       (format_kwargs distdir
                          (slashes_to_underscores import_path));
         Ok (Pathlib.from_parts [formatted])))
  /\ (forall (self : GoTestSubsystem) (distdir : DistDir) (import_path : string),
        _coverage_output_dir self = str_default _coverage_output_dir_option ->
        coverage_output_dir self distdir import_path
        = Ok (Pathlib.from_parts
                [Pathlib.str (relpath distdir) +:+ "/coverage/go/"
                 +:+ slashes_to_underscores import_path]))
  /\ (forall (self : GoTestSubsystem) (distdir : DistDir) (import_path : string),
        PyStr.contains "/" import_path = false ->
        coverage_output_dir self distdir import_path
        = (formatted ← str_format (_coverage_output_dir self)
                         (format_kwargs distdir import_path);
           Ok (Pathlib.from_parts [formatted])))
  /\ (forall (import_path : string),
        list_ascii_of_string (slashes_to_underscores import_path)
          = List.map escape_char (list_ascii_of_string import_path)
        /\ String.length (slashes_to_underscores import_path)
           = String.length import_path
        /\ (forall (i : nat),
              String.get i (slashes_to_underscores import_path)
              = option_map escape_char (String.get i import_path))
        /\ PyStr.contains "/" (slashes_to_underscores import_path) = false).
Proof.
  split; [|split; [|split]].
  - intros self distdir import_path. unfold coverage_output_dir.
    now rewrite replace_slashes_to_underscores.
  - intros self distdir import_path Htemplate.
    rewrite (coverage_output_dir_default self distdir import_path Htemplate).
    rewrite replace_slashes_to_underscores. do 2 f_equal. f_equal.
    now rewrite append_assoc.
  - intros self distdir import_path Hslash. unfold coverage_output_dir.
    now rewrite (replace_absent "/" "_" import_path Hslash).
  - intros import_path. split; [|split; [|split]].
    + induction import_path as [|c s IH]; [reflexivity|]. cbn. now rewrite IH.
    + induction import_path as [|c s IH]; [reflexivity|]. cbn. now rewrite IH.
    + induction import_path as [|c s IH]; intros i; [now destruct i|].
      destruct i as [|i]; cbn; [reflexivity|]. apply IH.
    + rewrite <- replace_slashes_to_underscores.
      now apply replace_removes.
Qed.

Lemma escaping_replaces_every_slash_witness :
  coverage_output_dir
    (with_template (str_default _coverage_output_dir_option))
    (mkDistDir (Pathlib.from_parts ["dist"])) "example.com/foo/bar"
  = Ok (Pathlib.from_parts ["dist/coverage/go/example.com_foo_bar"])
  /\ coverage_output_dir
       (with_template (str_default _coverage_output_dir_option))
       (mkDistDir (Pathlib.from_parts ["dist"])) "example.com"
     = Ok (Pathlib.from_parts ["dist/coverage/go/example.com"]).
Proof.
  pose proof escaping_replaces_every_slash as (_ & Hdefault & Hnoslash & _).
  split.
  - apply (Hdefault
             (with_template (str_default _coverage_output_dir_option))
             (mkDistDir (Pathlib.from_parts ["dist"])) "example.com/foo/bar").
    reflexivity.
  - rewrite (Hnoslash
               (with_template (str_default _coverage_output_dir_option))
               (mkDistDir (Pathlib.from_parts ["dist"])) "example.com"
               eq_refl).
    vm_compute. reflexivity.
Defined.

(** C5.  Substitution is single-pass.  Whatever the escaped import path
    contains, the expansion of a template with the placeholder
    [{import_path_escaped}] is the expansion of the text before it, the
    escaped import path as it is, and the expansion of the text after
    it.  With the default template the escaped import path, when it is
    neither empty nor a dot, is the last component of the path
    returned. *)
Theorem substitution_is_single_pass :
  (forall (self : GoTestSubsystem) (distdir : DistDir)
          (import_path pre post before after : string),
      _coverage_output_dir self
        = pre +:+ String "{" ("import_path_escaped" +:+ String "}" post) ->
      str_format pre
        (format_kwargs distdir (PyStr.replace import_path "/" "_")) = Ok before ->
      str_format post
        (format_kwargs distdir (PyStr.replace import_path "/" "_")) = Ok after ->
      coverage_output_dir self distdir import_path
      = Ok (Pathlib.from_parts
              [before +:+ PyStr.replace import_path "/" "_" +:+ after]))
  /\ (forall (self : GoTestSubsystem) (distdir : DistDir) (import_path : string),
        _coverage_output_dir self = str_default _coverage_output_dir_option ->
        Pathlib.keep (PyStr.replace import_path "/" "_") = true ->
        exists (path : Pathlib.PurePath) (front : list string),
          coverage_output_dir self distdir import_path = Ok path
          /\ Pathlib.parts path
             = (front ++ [PyStr.replace import_path "/" "_"])%list).
Proof.
  split.
  - intros self distdir import_path pre post before after Htemplate Hpre Hpost.
    unfold coverage_output_dir.
    rewrite Htemplate.
    rewrite (str_format_placeholder _ pre "import_path_escaped" post before
               Hpre eq_refl).
    rewrite format_kwargs_import_path_escaped, Hpost. reflexivity.
  - intros self distdir import_path Htemplate Hkeep.
    rewrite (coverage_output_dir_default self distdir import_path Htemplate).
    destruct (from_parts_last
                (Pathlib.str (relpath distdir) +:+ "/coverage/go")
                (PyStr.replace import_path "/" "_")
                (replace_removes "/" "_" import_path ltac:(discriminate))
                Hkeep) as [front Hfront].
    eauto.
Qed.

Lemma substitution_is_single_pass_witness :
  coverage_output_dir (with_template "{distdir}/coverage/go/{import_path_escaped}")
    (mkDistDir (Pathlib.from_parts ["dist"])) "{distdir}"
  = Ok (Pathlib.from_parts ["dist/coverage/go/" +:+ "{distdir}" +:+ EmptyString])
  /\ exists (path : Pathlib.PurePath) (front : list string),
       coverage_output_dir
         (with_template "{distdir}/coverage/go/{import_path_escaped}")
         (mkDistDir (Pathlib.from_parts ["dist"])) "{distdir}" = Ok path
       /\ Pathlib.parts path = (front ++ ["{distdir}"])%list.
Proof.
  split.
  - apply (proj1 substitution_is_single_pass
             (with_template "{distdir}/coverage/go/{import_path_escaped}")
             (mkDistDir (Pathlib.from_parts ["dist"])) "{distdir}"
             "{distdir}/coverage/go/" EmptyString "dist/coverage/go/" EmptyString).
    + reflexivity.
    + vm_compute. reflexivity.
    + reflexivity.
  - apply (proj2 substitution_is_single_pass
             (with_template "{distdir}/coverage/go/{import_path_escaped}")
             (mkDistDir (Pathlib.from_parts ["dist"])) "{distdir}").
    + reflexivity.
    + reflexivity.
Defined.

(** C6.  The three mode strings validate to their members, and a
    configuration given one of them is constructed with that mode; any
    other string fails with [InvalidChoice], which names the string and
    the legal values, and no instance is constructed. *)
Theorem coverage_mode_validation :
  validate_choice "set" = inr SET
  /\ validate_choice "count" = inr COUNT
  /\ validate_choice "atomic" = inr ATOMIC
  /\ (forall (raw : RawOptions) (m : GoCoverMode),
        raw_cover_mode raw = Some (GoCoverMode_value m) ->
        exists self, construct raw = inr self /\ coverage_mode self = m)
  /\ (forall (raw : RawOptions) (value : string),
        value <> "set" -> value <> "count" -> value <> "atomic" ->
        validate_choice value
          = inl {| offending_value := value;
                   legal_values := ["set"; "count"; "atomic"] |}
        /\ (raw_cover_mode raw = Some value ->
            construct raw
            = inl {| offending_value := value;
                     legal_values := ["set"; "count"; "atomic"] |})).
Proof.
  split; [reflexivity|]. split; [reflexivity|]. split; [reflexivity|]. split.
  - intros raw m Hraw. unfold construct. rewrite Hraw.
    destruct m; cbn; eauto.
  - intros raw value Hset Hcount Hatomic.
    assert (Hv : validate_choice value
                 = inl {| offending_value := value;
                          legal_values := ["set"; "count"; "atomic"] |}).
    { unfold validate_choice, GoCoverMode_members.
      cbn [find_choice GoCoverMode_value].
      apply not_eq_sym, String.eqb_neq in Hset, Hcount, Hatomic.
      now rewrite Hset, Hcount, Hatomic. }
    split; [exact Hv|].
    intros Hraw. unfold construct. now rewrite Hraw, Hv.
Qed.

Lemma coverage_mode_validation_witness :
  (exists self,
      construct
        (mkRawOptions [] (Some "count") None None None None None None None)
      = inr self /\ coverage_mode self = COUNT)
  /\ validate_choice "branch"
     = inl {| offending_value := "branch";
              legal_values := ["set"; "count"; "atomic"] |}
  /\ construct
       (mkRawOptions [] (Some "branch") None None None None None None None)
     = inl {| offending_value := "branch";
              legal_values := ["set"; "count"; "atomic"] |}.
Proof.
  pose proof coverage_mode_validation as (_ & _ & _ & Hvalid & Hinvalid).
  split.
  - apply (Hvalid
             (mkRawOptions [] (Some "count") None None None None None None None)
             COUNT).
    reflexivity.
  - destruct (Hinvalid
                (mkRawOptions [] (Some "branch") None None None None None None None)
                "branch") as [Hv Hc]; [discriminate..|].
    split; [exact Hv|]. apply Hc. reflexivity.
Defined.

(** C7.  With no option overridden the configuration is constructed with
    coverage mode SET, coverage HTML on, skip off, the three force flags
    off and no include patterns. *)
Theorem default_construction (passthrough_args : list string) :
  exists (self : GoTestSubsystem),
    construct (no_overrides passthrough_args) = inr self
    /\ coverage_mode self = SET
    /\ coverage_html self = true
    /\ skip self = false
    /\ force_race self = false
    /\ force_msan self = false
    /\ force_asan self = false
    /\ coverage_include_patterns self = [].
Proof.
  eexists. split; [reflexivity|]. cbn. repeat split.
Qed.

(** C8 (as stated) fails: a string without any placeholder token can
    still change under expansion, because a doubled closing brace is the
    escape of a single one. *)
Lemma expansion_without_token_not_identity :
  ~ (forall (s : string) (kwargs : gmap string PyVal),
        has_placeholder_token s = false -> str_format s kwargs = Ok s).
Proof.
  intros H.
  specialize (H "}}" (format_kwargs (mkDistDir (Pathlib.from_parts ["dist"]))
                        "example.com_foo_bar") eq_refl).
  vm_compute in H. discriminate H.
Qed.

(** C8 (as amended).  A string without any brace expands to itself, for
    every substitution mapping, and so does a second expansion of the
    result; a template without braces gives its own path. *)
Theorem expansion_without_brace_is_identity
    (s : string) (kwargs : gmap string PyVal)
    (self : GoTestSubsystem) (distdir : DistDir) (import_path : string) :
  has_brace s = false ->
  str_format s kwargs = Ok s
  /\ (expanded ← str_format s kwargs; str_format expanded kwargs) = Ok s
  /\ (_coverage_output_dir self = s ->
      coverage_output_dir self distdir import_path
      = Ok (Pathlib.from_parts [s])).
Proof.
  intros Hs. pose proof (str_format_no_brace kwargs s Hs) as H.
  split; [exact H|]. split.
  - rewrite H. exact H.
  - intros Htemplate. unfold coverage_output_dir.
    now rewrite Htemplate, (str_format_no_brace _ s Hs).
Qed.

Lemma expansion_without_brace_is_identity_witness :
  str_format "dist/coverage/go/example.com_foo_bar"
    (format_kwargs (mkDistDir (Pathlib.from_parts ["dist"])) "example.com_foo_bar")
  = Ok "dist/coverage/go/example.com_foo_bar".
Proof.
  apply (expansion_without_brace_is_identity
           "dist/coverage/go/example.com_foo_bar"
           (format_kwargs (mkDistDir (Pathlib.from_parts ["dist"]))
              "example.com_foo_bar")
           (with_template "dist/coverage/go/example.com_foo_bar")
           (mkDistDir (Pathlib.from_parts ["dist"])) "example.com/foo/bar").
  reflexivity.
Defined.



(** C10.  The escaping is not injective: the distinct import paths
    [a/b] and [a_b] get the same output path, for every configuration
    and distdir; with the default template and the distdir [dist] both
    calls return the path [dist/coverage/go/a_b]. *)
Theorem escaping_collision :
  exists (p1 p2 : string),
    p1 = "a/b" /\ p2 = "a_b" /\ p1 <> p2
    /\ PyStr.replace p1 "/" "_" = PyStr.replace p2 "/" "_"
    /\ (forall (self : GoTestSubsystem) (distdir : DistDir),
          coverage_output_dir self distdir p1
          = coverage_output_dir self distdir p2)
    /\ coverage_output_dir
         (with_template (str_default _coverage_output_dir_option))
         (mkDistDir (Pathlib.from_parts ["dist"])) p1
       = Ok (Pathlib.from_parts ["dist/coverage/go/a_b"])
    /\ coverage_output_dir
         (with_template (str_default _coverage_output_dir_option))
         (mkDistDir (Pathlib.from_parts ["dist"])) p2
       = Ok (Pathlib.from_parts ["dist/coverage/go/a_b"]).
Proof.
  exists "a/b", "a_b".
  split; [reflexivity|]. split; [reflexivity|]. split; [discriminate|].
  split; [reflexivity|]. split; [reflexivity|].
  split; vm_compute; reflexivity.
Qed.

(** * Further facts about the string methods and paths *)

Lemma escape_cons (c : ascii) (s : string) :
  PyStr.replace (String c s) "/" "_"
  = String (escape_char c) (PyStr.replace s "/" "_").
Proof.
  unfold PyStr.replace, escape_char. cbn [PyStr.replace_from].
  rewrite prefix_one_char.
  destruct (Ascii.eqb c "/"); [|reflexivity].
  cbn [String.length Nat.pred]. now rewrite append_cons, append_empty_l.
Qed.

Lemma split_pieces (sep : ascii) (s : string) :
  Forall (fun x => PyStr.contains sep x = false) (PyStr.split sep s).
Proof.
  induction s as [|c s IH]; cbn [PyStr.split].
  - constructor; [reflexivity|constructor].
  - destruct (Ascii.eqb c sep) eqn:Hc.
    + constructor; [reflexivity|exact IH].
    + destruct (PyStr.split sep s) as [|field fields].
      * constructor; [|constructor]. cbn. now rewrite Hc.
      * inversion IH as [|? ? Hfield Hfields]; subst.
        constructor; [|exact Hfields]. cbn. now rewrite Hc, Hfield.
Qed.

Lemma filter_keep_components (l : list string) :
  Forall (fun x => PyStr.contains Pathlib.sep x = false) l ->
  forallb component (List.filter Pathlib.keep l) = true.
Proof.
  induction 1 as [|x l Hx Hl IH]; [reflexivity|].
  cbn [List.filter]. destruct (Pathlib.keep x) eqn:Hkeep; [|exact IH].
  cbn [forallb]. unfold component at 1. now rewrite Hkeep, Hx, IH.
Qed.

Lemma rel_parts_components (rel : string) :
  forallb component (Pathlib.rel_parts rel) = true.
Proof. apply filter_keep_components, split_pieces. Qed.

Lemma rel_parts_app_sep (a b : string) :
  Pathlib.rel_parts (a +:+ String Pathlib.sep b)
  = (Pathlib.rel_parts a ++ Pathlib.rel_parts b)%list.
Proof.
  unfold Pathlib.rel_parts. now rewrite split_app_sep, List.filter_app.
Qed.

Lemma rel_parts_no_sep (e : string) :
  PyStr.contains Pathlib.sep e = false ->
  Pathlib.rel_parts e = if Pathlib.keep e then [e] else [].
Proof.
  intros He. unfold Pathlib.rel_parts. now rewrite (split_absent _ _ He).
Qed.

Lemma component_inv (x : string) :
  component x = true ->
  Pathlib.keep x = true /\ PyStr.contains Pathlib.sep x = false.
Proof.
  unfold component. intros [Hk Hs%negb_true_iff]%andb_true_iff. now split.
Qed.

Lemma component_head (x : string) :
  component x = true ->
  exists c x', x = String c x' /\ Ascii.eqb c Pathlib.sep = false.
Proof.
  intros [Hkeep Hsep]%component_inv.
  destruct x as [|c x']; [discriminate|].
  exists c, x'. split; [reflexivity|].
  cbn [PyStr.contains] in Hsep. now apply orb_false_iff in Hsep as [? _].
Qed.

Lemma join_cons_cons (x y : string) (rest : list string) :
  PyStr.join "/" (x :: y :: rest)
  = x +:+ String Pathlib.sep (PyStr.join "/" (y :: rest)).
Proof. reflexivity. Qed.

Lemma rel_parts_join (ps : list string) :
  forallb component ps = true ->
  Pathlib.rel_parts (PyStr.join "/" ps) = ps.
Proof.
  induction ps as [|x ps IH]; [reflexivity|].
  cbn [forallb]. intros [Hx Hps]%andb_true_iff.
  apply component_inv in Hx as [Hkeep Hsep].
  destruct ps as [|y ps].
  - cbn [PyStr.join]. now rewrite (rel_parts_no_sep _ Hsep), Hkeep.
  - rewrite join_cons_cons, rel_parts_app_sep, (IH Hps).
    now rewrite (rel_parts_no_sep _ Hsep), Hkeep.
Qed.

Lemma join_head (ps : list string) :
  forallb component ps = true -> ps <> [] ->
  exists c s, PyStr.join "/" ps = String c s /\ Ascii.eqb c Pathlib.sep = false.
Proof.
  destruct ps as [|x ps]; [congruence|].
  cbn [forallb]. intros [Hx _]%andb_true_iff _.
  apply component_head in Hx as (c & x' & -> & Hc).
  destruct ps as [|y ps].
  - now exists c, x'.
  - rewrite join_cons_cons, append_cons. eauto.
Qed.

Lemma from_parts_relative (c : ascii) (s : string) :
  Ascii.eqb c Pathlib.sep = false ->
  Pathlib.from_parts [String c s]
  = {| Pathlib.root := EmptyString;
       Pathlib.parts := Pathlib.rel_parts (String c s) |}.
Proof.
  intros Hc. unfold Pathlib.from_parts, Pathlib.parse_parts.
  cbn [rev app Pathlib.parse_reversed String.eqb Pathlib.splitroot].
  rewrite Hc. reflexivity.
Qed.

(** The string of a relative path in normal form. *)
Lemma str_relative (ps : list string) :
  forallb component ps = true ->
  Pathlib.str {| Pathlib.root := EmptyString; Pathlib.parts := ps |}
  = match ps with
    | [] => "."
    | _ :: _ => PyStr.join "/" ps
    end.
Proof.
  intros Hps. unfold Pathlib.str, Pathlib.format_parsed_parts.
  cbn [Pathlib.root Pathlib.parts String.eqb].
  destruct ps as [|x ps]; [reflexivity|].
  destruct (join_head (x :: ps) Hps ltac:(discriminate)) as (c & s & -> & _).
  reflexivity.
Qed.

Lemma rel_parts_str_relative (ps : list string) :
  forallb component ps = true ->
  Pathlib.rel_parts
    (Pathlib.str {| Pathlib.root := EmptyString; Pathlib.parts := ps |}) = ps.
Proof.
  intros Hps. rewrite (str_relative ps Hps).
  destruct ps as [|x ps]; [reflexivity|]. now apply rel_parts_join.
Qed.

Lemma str_relative_head (ps : list string) :
  forallb component ps = true ->
  exists c s,
    Pathlib.str {| Pathlib.root := EmptyString; Pathlib.parts := ps |}
    = String c s /\ Ascii.eqb c Pathlib.sep = false.
Proof.
  intros Hps. rewrite (str_relative ps Hps).
  destruct ps as [|x ps].
  - now exists "."%char, EmptyString.
  - apply (join_head (x :: ps) Hps). discriminate.
Qed.

Lemma rel_parts_coverage_go :
  Pathlib.rel_parts "coverage/go" = ["coverage"; "go"].
Proof. reflexivity. Qed.

Lemma keep_escape (import_path : string) :
  Pathlib.keep (PyStr.replace import_path "/" "_") = Pathlib.keep import_path.
Proof.
  destruct import_path as [|c s]; [reflexivity|].
  rewrite escape_cons. unfold Pathlib.keep. cbn [String.eqb negb andb].
  unfold escape_char.
  destruct (Ascii.eqb c "/") eqn:Hslash.
  - apply Ascii.eqb_eq in Hslash as ->. reflexivity.
  - destruct (Ascii.eqb c ".") eqn:Hdot; [|reflexivity].
    destruct s as [|c' s]; [reflexivity|]. now rewrite escape_cons.
Qed.

(** The path that the default template gives for a relative distdir in
    normal form. *)
Lemma coverage_output_dir_default_relative
    (self : GoTestSubsystem) (ps : list string) (import_path : string) :
  _coverage_output_dir self = str_default _coverage_output_dir_option ->
  forallb component ps = true ->
  coverage_output_dir self
    (mkDistDir {| Pathlib.root := EmptyString; Pathlib.parts := ps |})
    import_path
  = Ok {| Pathlib.root := EmptyString;
          Pathlib.parts :=
            (ps ++ ["coverage"; "go"]
                ++ (if Pathlib.keep import_path
                    then [PyStr.replace import_path "/" "_"] else []))%list |}.
Proof.
  intros Htemplate Hps.
  rewrite (coverage_output_dir_default self _ import_path Htemplate).
  cbn [relpath].
  set (escaped := PyStr.replace import_path "/" "_").
  set (d := Pathlib.str {| Pathlib.root := EmptyString; Pathlib.parts := ps |}).
  set (formatted := (d +:+ "/coverage/go") +:+ String Pathlib.sep escaped).
  assert (Hhead : exists c t,
             formatted = String c t /\ Ascii.eqb c Pathlib.sep = false).
  { destruct (str_relative_head ps Hps) as (c & t & Hd & Hc).
    exists c, ((t +:+ "/coverage/go") +:+ String Pathlib.sep escaped).
    split; [|exact Hc]. unfold formatted. fold d in Hd. now rewrite Hd. }
  destruct Hhead as (c & t & Hformatted & Hc).
  rewrite Hformatted, (from_parts_relative c t Hc), <- Hformatted.
  do 2 f_equal. unfold formatted.
  rewrite rel_parts_app_sep.
  change "/coverage/go" with (String Pathlib.sep "coverage/go").
  rewrite rel_parts_app_sep, rel_parts_coverage_go.
  unfold d. rewrite (rel_parts_str_relative ps Hps).
  rewrite (rel_parts_no_sep escaped
             (replace_removes "/" "_" import_path ltac:(discriminate))).
  unfold escaped. rewrite keep_escape.
  now rewrite <- app_assoc.
Qed.

Lemma escape_char_injective (c1 c2 : ascii) :
  Ascii.eqb c1 "_" = false -> Ascii.eqb c2 "_" = false ->
  escape_char c1 = escape_char c2 -> c1 = c2.
Proof.
  unfold escape_char. intros H1 H2.
  destruct (Ascii.eqb c1 "/") eqn:E1, (Ascii.eqb c2 "/") eqn:E2; intros H.
  - apply Ascii.eqb_eq in E1, E2. congruence.
  - subst c2. discriminate.
  - subst c1. discriminate.
  - exact H.
Qed.

Lemma escape_injective (p1 p2 : string) :
  PyStr.contains "_" p1 = false -> PyStr.contains "_" p2 = false ->
  PyStr.replace p1 "/" "_" = PyStr.replace p2 "/" "_" -> p1 = p2.
Proof.
  revert p2. induction p1 as [|c1 p1 IH]; intros [|c2 p2] H1 H2 H.
  - reflexivity.
  - rewrite escape_cons in H. discriminate.
  - rewrite escape_cons in H. discriminate.
  - rewrite !escape_cons in H. injection H as Hc Hp.
    cbn [PyStr.contains] in H1, H2.
    apply orb_false_iff in H1 as [Hc1 Hp1], H2 as [Hc2 Hp2].
    f_equal; [now apply escape_char_injective|now apply IH].
Qed.

Lemma keep_false_iff (x : string) :
  Pathlib.keep x = false <-> x = EmptyString \/ x = ".".
Proof.
  unfold Pathlib.keep. split.
  - intros H. apply andb_false_iff in H as [H|H]; apply negb_false_iff in H;
      apply String.eqb_eq in H; auto.
  - intros [->| ->]; reflexivity.
Qed.

Lemma join_app (ps qs : list string) :
  ps <> [] -> qs <> [] ->
  PyStr.join "/" (ps ++ qs)%list
  = PyStr.join "/" ps +:+ String Pathlib.sep (PyStr.join "/" qs).
Proof.
  intros Hps Hqs. induction ps as [|x ps IH]; [congruence|].
  destruct ps as [|y ps].
  - destruct qs as [|q qs]; [congruence|]. reflexivity.
  - change ((x :: y :: ps) ++ qs)%list with (x :: y :: (ps ++ qs)%list).
    rewrite !join_cons_cons.
    change (y :: (ps ++ qs)%list) with ((y :: ps) ++ qs)%list.
    rewrite IH by discriminate. now rewrite append_assoc, append_cons.
Qed.

Lemma normalised_relative_inv (p : Pathlib.PurePath) :
  relative p = true -> normalised p = true ->
  p = {| Pathlib.root := EmptyString; Pathlib.parts := Pathlib.parts p |}
  /\ forallb component (Pathlib.parts p) = true.
Proof.
  destruct p as [rt ps]. unfold relative, normalised. cbn [Pathlib.root Pathlib.parts].
  intros Hrel. rewrite Hrel. apply String.eqb_eq in Hrel as ->. now split.
Qed.

Lemma splitroot_root (part : string) :
  fst (Pathlib.splitroot part) = EmptyString
  \/ fst (Pathlib.splitroot part) = "/"
  \/ fst (Pathlib.splitroot part) = "//".
Proof.
  unfold Pathlib.splitroot. destruct part as [|c s]; [now left|].
  destruct (Ascii.eqb c Pathlib.sep); [|now left].
  destruct (Nat.eqb _ 2); cbn; auto.
Qed.

Lemma parse_reversed_normal (rparts : list string) :
  (fst (Pathlib.parse_reversed rparts) = EmptyString
   \/ fst (Pathlib.parse_reversed rparts) = "/"
   \/ fst (Pathlib.parse_reversed rparts) = "//")
  /\ forallb component (snd (Pathlib.parse_reversed rparts)) = true.
Proof.
  induction rparts as [|part more IH]; [cbn; auto|].
  cbn [Pathlib.parse_reversed].
  destruct (String.eqb part EmptyString); [exact IH|].
  pose proof (splitroot_root part) as Hroot.
  destruct (Pathlib.splitroot part) as [rt rel]. cbn [fst] in Hroot.
  destruct (String.eqb rt EmptyString).
  - destruct (Pathlib.parse_reversed more) as [rt' parsed].
    cbn [fst snd] in *. destruct IH as [IHroot IHparts].
    split; [exact IHroot|].
    now rewrite forallb_app, IHparts, rel_parts_components.
  - cbn [fst snd]. split; [exact Hroot|apply rel_parts_components].
Qed.

(** The constructor gives a path in normal form. *)
Lemma from_parts_normalised (args : list string) :
  normalised (Pathlib.from_parts args) = true.
Proof.
  unfold Pathlib.from_parts, Pathlib.parse_parts.
  pose proof (parse_reversed_normal (rev args)) as [Hroot Hparts].
  destruct (Pathlib.parse_reversed (rev args)) as [rt parsed].
  cbn [fst snd] in *. unfold normalised. cbn [Pathlib.root Pathlib.parts].
  destruct Hroot as [->|[->| ->]]; cbn; now rewrite ?Hparts.
Qed.

Lemma lstrip_join (ps : list string) :
  forallb component ps = true ->
  PyStr.lstrip Pathlib.sep (PyStr.join "/" ps) = PyStr.join "/" ps.
Proof.
  intros Hps. destruct ps as [|x ps]; [reflexivity|].
  destruct (join_head (x :: ps) Hps ltac:(discriminate)) as (c & s & -> & Hc).
  cbn [PyStr.lstrip]. now rewrite Hc.
Qed.

(** Printing a path in normal form and parsing the string gives the
    path back. *)
Lemma from_parts_str (p : Pathlib.PurePath) :
  normalised p = true -> Pathlib.from_parts [Pathlib.str p] = p.
Proof.
  destruct p as [rt ps]. unfold normalised. cbn [Pathlib.root Pathlib.parts].
  destruct (String.eqb rt EmptyString) eqn:Hrt.
  - apply String.eqb_eq in Hrt as ->. intros Hps.
    destruct (str_relative_head ps Hps) as (c & s & Hstr & Hc).
    rewrite Hstr, (from_parts_relative c s Hc), <- Hstr.
    now rewrite (rel_parts_str_relative ps Hps).
  - intros [Hroot Hparts]%andb_true_iff.
    destruct ps as [|anchor components]; [discriminate|].
    apply andb_true_iff in Hparts as [Hanchor Hcomponents].
    apply String.eqb_eq in Hanchor as ->.
    pose proof (lstrip_join components Hcomponents) as Hstrip.
    pose proof (rel_parts_join components Hcomponents) as Hrel.
    set (j := PyStr.join "/" components) in *.
    apply orb_true_iff in Hroot as [Hroot|Hroot];
      apply String.eqb_eq in Hroot as ->;
      unfold Pathlib.str, Pathlib.format_parsed_parts;
      cbn [Pathlib.root Pathlib.parts String.eqb Ascii.eqb Bool.eqb tl];
      fold j; rewrite !append_cons, append_empty_l;
      cbn [String.eqb];
      unfold Pathlib.from_parts, Pathlib.parse_parts;
      cbn [rev app Pathlib.parse_reversed String.eqb Pathlib.splitroot];
      change (Ascii.eqb "/" Pathlib.sep) with true; cbn iota;
      cbn [PyStr.lstrip]; change (Ascii.eqb "/" Pathlib.sep) with true;
      cbn iota; rewrite Hstrip; cbn [String.length].
    + replace (S (String.length j) - String.length j) with 1 by lia.
      cbn. now rewrite Hrel.
    + replace (S (S (String.length j)) - String.length j) with 2 by lia.
      cbn. now rewrite Hrel.
Qed.

(** * Further facts about str.format *)

Lemma format_from_unterminated (kwargs : gmap string PyVal) (name : string) :
  name_chars name = true ->
  forall (acc : string),
    format_from kwargs (Name acc) name
    = Raise (ValueError "expected '}' before end of string").
Proof.
  induction name as [|c name IH]; intros Hname acc; [reflexivity|].
  cbn [name_chars] in Hname. apply andb_true_iff in Hname as [Hc Hname].
  apply name_char_inv in Hc as (H1 & H2 & H3 & H4 & H5 & _).
  cbn [format_from]. rewrite H1, H2, H3, H4, H5. cbn [orb].
  now apply IH.
Qed.

Lemma decimal_name_char (c : ascii) (n : N) :
  decimal c = Some n -> name_char c = true.
Proof.
  destruct c as [[] [] [] [] [] [] [] []]; vm_compute; congruence.
Qed.

Lemma all_digits_name_chars (name : string) :
  all_digits name = true -> name_chars name = true.
Proof.
  induction name as [|c name IH]; [reflexivity|].
  cbn [all_digits name_chars].
  destruct (decimal c) as [n|] eqn:Hc; [|discriminate].
  intros Hname. now rewrite (decimal_name_char c n Hc), (IH Hname).
Qed.

Lemma get_integer_from_digits (name : string) :
  all_digits name = true ->
  forall (accumulator : N),
    get_integer_from accumulator name = TooManyDigits
    \/ exists n, get_integer_from accumulator name = Integer n.
Proof.
  induction name as [|c name IH]; intros Hname accumulator.
  - right. now exists accumulator.
  - cbn [all_digits] in Hname. cbn [get_integer_from].
    destruct (decimal c) as [digitval|]; [|discriminate].
    destruct (_ <? _)%N; [now left|]. now apply IH.
Qed.

(** A field whose name is empty or a number never gives a value. *)
Lemma render_field_positional (kwargs : gmap string PyVal) (name : string) :
  all_digits name = true ->
  render_field kwargs name
  = match name with
    | EmptyString => Raise (IndexError 0)
    | String _ _ =>
        match get_integer name with
        | Integer index => Raise (IndexError index)
        | _ => Raise (ValueError "Too many decimal digits in format string")
        end
    end.
Proof.
  intros Hname. unfold render_field, get_field_object.
  rewrite (field_name_split_name_chars name (all_digits_name_chars name Hname)).
  destruct name as [|c name]; [reflexivity|].
  unfold get_integer.
  destruct (get_integer_from_digits (String c name) Hname 0%N) as [->|[n ->]];
    reflexivity.
Qed.

Lemma escape_app (a b : string) :
  PyStr.replace (a +:+ b) "/" "_"
  = PyStr.replace a "/" "_" +:+ PyStr.replace b "/" "_".
Proof.
  induction a as [|c a IH]; [reflexivity|].
  now rewrite append_cons, !escape_cons, append_cons, IH.
Qed.

(** The parts of the path that the default template gives for a relative
    distdir in normal form. *)
Lemma coverage_output_dir_default_parts
    (self : GoTestSubsystem) (distdir : DistDir) (import_path : string) :
  _coverage_output_dir self = str_default _coverage_output_dir_option ->
  relative (relpath distdir) = true ->
  normalised (relpath distdir) = true ->
  coverage_output_dir self distdir import_path
  = Ok {| Pathlib.root := EmptyString;
          Pathlib.parts :=
            (Pathlib.parts (relpath distdir) ++ ["coverage"; "go"]
               ++ (if Pathlib.keep import_path
                   then [PyStr.replace import_path "/" "_"] else []))%list |}.
Proof.
  intros Htemplate Hrel Hnorm.
  destruct (normalised_relative_inv _ Hrel Hnorm) as [Hp Hps].
  destruct distdir as [p]. cbn [relpath] in *. rewrite Hp at 1.
  now apply coverage_output_dir_default_relative.
Qed.

Lemma decimal_bound (c : ascii) (digitval : N) :
  decimal c = Some digitval -> (digitval <= 9)%N.
Proof.
  unfold decimal.
  destruct ((48 <=? N_of_ascii c)%N && (N_of_ascii c <=? 57)%N) eqn:H;
    [|discriminate].
  apply andb_true_iff in H as [H1%N.leb_le H2%N.leb_le].
  intros [= <-]. lia.
Qed.

Lemma decimal_value_from_ge (s : string) :
  forall (accumulator : N),
    (accumulator <= decimal_value_from accumulator s)%N.
Proof.
  induction s as [|c s IH]; intros accumulator; cbn [decimal_value_from];
    [lia|].
  destruct (decimal c) as [digitval|]; [|lia].
  specialize (IH (accumulator * 10 + digitval)%N). lia.
Qed.

(** The overflow check of [get_integer]: a string of digits is an index
    exactly when the number it writes is at most [PY_SSIZE_T_MAX]. *)
Lemma get_integer_from_value (s : string) :
  all_digits s = true ->
  forall (accumulator : N),
    (accumulator <= PY_SSIZE_T_MAX)%N ->
    get_integer_from accumulator s
    = if (decimal_value_from accumulator s <=? PY_SSIZE_T_MAX)%N
      then Integer (decimal_value_from accumulator s)
      else TooManyDigits.
Proof.
  induction s as [|c s IH]; intros Hs accumulator Hacc;
    cbn [get_integer_from decimal_value_from].
  - now apply N.leb_le in Hacc as ->.
  - cbn [all_digits] in Hs.
    destruct (decimal c) as [digitval|] eqn:Hc; [|discriminate].
    pose proof (decimal_bound c digitval Hc) as Hdigit.
    destruct ((PY_SSIZE_T_MAX - digitval) / 10 <? accumulator)%N eqn:Hcheck.
    + apply N.ltb_lt in Hcheck.
      assert (Hover : (PY_SSIZE_T_MAX < accumulator * 10 + digitval)%N).
      { unfold PY_SSIZE_T_MAX in *.
        pose proof (N.mod_lt (9223372036854775807 - digitval) 10
                      ltac:(discriminate)) as Hr.
        pose proof (N.Div0.div_mod (9223372036854775807 - digitval) 10) as Hq.
        set (q := ((9223372036854775807 - digitval) / 10)%N) in *.
        set (r := ((9223372036854775807 - digitval) mod 10)%N) in *.
        clearbody q r. lia. }
      pose proof (decimal_value_from_ge s (accumulator * 10 + digitval)%N).
      destruct (N.leb_spec
                  (decimal_value_from (accumulator * 10 + digitval) s)
                  PY_SSIZE_T_MAX); [lia|reflexivity].
    + apply N.ltb_ge in Hcheck. apply (IH Hs).
      unfold PY_SSIZE_T_MAX in *.
      pose proof (N.Div0.div_mod (9223372036854775807 - digitval) 10) as Hq.
      set (q := ((9223372036854775807 - digitval) / 10)%N) in *.
      set (r := ((9223372036854775807 - digitval) mod 10)%N) in *.
      clearbody q r. lia.
Qed.

(** * Further properties of the method *)

(** X1.  With the default template the method raises for no distdir and
    no import path: it returns the path made from the string of the
    distdir, [/coverage/go/] and the escaped import path. *)
Theorem default_template_never_raises
    (self : GoTestSubsystem) (distdir : DistDir) (import_path : string) :
  _coverage_output_dir self = str_default _coverage_output_dir_option ->
  exists (path : Pathlib.PurePath),
    coverage_output_dir self distdir import_path = Ok path
    /\ path = Pathlib.from_parts
                [Pathlib.str (relpath distdir) +:+ "/coverage/go/"
                 +:+ PyStr.replace import_path "/" "_"].
Proof.
  intros Htemplate. eexists. split.
  - apply (coverage_output_dir_default self distdir import_path Htemplate).
  - do 2 f_equal. now rewrite append_assoc.
Qed.

Lemma default_template_never_raises_witness :
  exists (path : Pathlib.PurePath),
    coverage_output_dir
      (with_template (str_default _coverage_output_dir_option))
      (mkDistDir (Pathlib.from_parts ["/abs//dist/"])) "{0}/}x{" = Ok path
    /\ path = Pathlib.from_parts
                [Pathlib.str (Pathlib.from_parts ["/abs//dist/"])
                 +:+ "/coverage/go/" +:+ PyStr.replace "{0}/}x{" "/" "_"].
Proof.
  apply (default_template_never_raises
           (with_template (str_default _coverage_output_dir_option))
           (mkDistDir (Pathlib.from_parts ["/abs//dist/"])) "{0}/}x{").
  reflexivity.
Defined.

(** X2.  With the default template and a relative distdir in normal
    form, the path returned is relative; its parts are the parts of the
    distdir, then [coverage] and [go], then the escaped import path when
    the import path is neither empty nor a dot. *)
Theorem default_output_dir_components
    (self : GoTestSubsystem) (distdir : DistDir) (import_path : string) :
  _coverage_output_dir self = str_default _coverage_output_dir_option ->
  relative (relpath distdir) = true ->
  normalised (relpath distdir) = true ->
  coverage_output_dir self distdir import_path
  = Ok {| Pathlib.root := EmptyString;
          Pathlib.parts :=
            (Pathlib.parts (relpath distdir) ++ ["coverage"; "go"]
               ++ (if Pathlib.keep import_path
                   then [PyStr.replace import_path "/" "_"] else []))%list |}.
Proof.
  apply coverage_output_dir_default_parts.
Qed.

Lemma default_output_dir_components_witness :
  coverage_output_dir
    (with_template (str_default _coverage_output_dir_option))
    (mkDistDir (Pathlib.from_parts ["build/./dist"])) "github.com/a/b"
  = Ok {| Pathlib.root := EmptyString;
          Pathlib.parts := ["build"; "dist"; "coverage"; "go"; "github.com_a_b"] |}.
Proof.
  apply (default_output_dir_components
           (with_template (str_default _coverage_output_dir_option))
           (mkDistDir (Pathlib.from_parts ["build/./dist"])) "github.com/a/b");
    reflexivity.
Defined.

(** X3.  With the default template and a relative distdir in normal
    form, the import-path component is dropped exactly for the import
    paths that are empty or a dot: for them, and only for them, the path
    returned is the directory [coverage/go] under the distdir itself. *)
Theorem degenerate_import_path
    (self : GoTestSubsystem) (distdir : DistDir) (import_path : string) :
  _coverage_output_dir self = str_default _coverage_output_dir_option ->
  relative (relpath distdir) = true ->
  normalised (relpath distdir) = true ->
  (import_path = EmptyString \/ import_path = ".")
  <-> coverage_output_dir self distdir import_path
      = Ok {| Pathlib.root := EmptyString;
              Pathlib.parts :=
                (Pathlib.parts (relpath distdir) ++ ["coverage"; "go"])%list |}.
Proof.
  intros Htemplate Hrel Hnorm.
  rewrite (coverage_output_dir_default_parts self distdir import_path
             Htemplate Hrel Hnorm).
  rewrite <- keep_false_iff.
  destruct (Pathlib.keep import_path); split.
  - discriminate.
  - intros H. injection H as H.
    apply app_inv_head in H. discriminate.
  - reflexivity.
  - reflexivity.
Qed.

Lemma degenerate_import_path_witness :
  coverage_output_dir
    (with_template (str_default _coverage_output_dir_option))
    (mkDistDir (Pathlib.from_parts ["dist"])) "."
  = Ok {| Pathlib.root := EmptyString;
          Pathlib.parts := ["dist"; "coverage"; "go"] |}.
Proof.
  apply (degenerate_import_path
           (with_template (str_default _coverage_output_dir_option))
           (mkDistDir (Pathlib.from_parts ["dist"])) ".");
    [reflexivity..|].
  right. reflexivity.
Defined.

(** X4.  With the default template and a relative distdir in normal
    form, two import paths without underscore, neither empty nor a dot,
    that get the same output path are the same import path. *)
Theorem no_collision_without_underscore
    (self : GoTestSubsystem) (distdir : DistDir) (p1 p2 : string) :
  _coverage_output_dir self = str_default _coverage_output_dir_option ->
  relative (relpath distdir) = true ->
  normalised (relpath distdir) = true ->
  PyStr.contains "_" p1 = false -> PyStr.contains "_" p2 = false ->
  Pathlib.keep p1 = true -> Pathlib.keep p2 = true ->
  coverage_output_dir self distdir p1 = coverage_output_dir self distdir p2 ->
  p1 = p2.
Proof.
  intros Htemplate Hrel Hnorm Hu1 Hu2 Hk1 Hk2.
  rewrite !(coverage_output_dir_default_parts self distdir _ Htemplate Hrel Hnorm).
  rewrite Hk1, Hk2. intros H. injection H as H.
  apply app_inv_head in H. injection H as H.
  now apply escape_injective.
Qed.

Lemma no_collision_without_underscore_witness :
  "example.com/foo" = "example.com/foo".
Proof.
  apply (no_collision_without_underscore
           (with_template (str_default _coverage_output_dir_option))
           (mkDistDir (Pathlib.from_parts ["dist"]))
           "example.com/foo" "example.com/foo");
    reflexivity.
Defined.

(** X5.  With the default template, a relative distdir in normal form
    and an import path neither empty nor a dot, the string of the path
    returned is the expanded template itself when the distdir is not
    empty, and the expanded template without the leading [./] when it
    is. *)
Theorem default_output_dir_string
    (self : GoTestSubsystem) (distdir : DistDir) (import_path : string) :
  _coverage_output_dir self = str_default _coverage_output_dir_option ->
  relative (relpath distdir) = true ->
  normalised (relpath distdir) = true ->
  Pathlib.keep import_path = true ->
  exists (path : Pathlib.PurePath),
    coverage_output_dir self distdir import_path = Ok path
    /\ Pathlib.str path
       = match Pathlib.parts (relpath distdir) with
         | [] => "coverage/go/" +:+ PyStr.replace import_path "/" "_"
         | _ :: _ =>
             Pathlib.str (relpath distdir) +:+ "/coverage/go/"
             +:+ PyStr.replace import_path "/" "_"
         end.
Proof.
  intros Htemplate Hrel Hnorm Hkeep.
  rewrite (coverage_output_dir_default_parts self distdir import_path
             Htemplate Hrel Hnorm), Hkeep.
  eexists. split; [reflexivity|].
  destruct (normalised_relative_inv _ Hrel Hnorm) as [Hp Hps].
  set (escaped := PyStr.replace import_path "/" "_").
  assert (Hesc : component escaped = true).
  { unfold component, escaped, Pathlib.sep. rewrite keep_escape, Hkeep.
    now rewrite replace_removes by discriminate. }
  assert (Htail : forallb component ["coverage"; "go"; escaped] = true).
  { cbn [forallb]. now rewrite Hesc. }
  rewrite str_relative.
  2:{ rewrite forallb_app, Hps. exact Htail. }
  rewrite Hp, (str_relative _ Hps). cbn [Pathlib.parts].
  destruct (Pathlib.parts (relpath distdir)) as [|x ps] eqn:Hparts.
  - reflexivity.
  - change (x :: ps ++ ["coverage"; "go"] ++ [escaped])%list
      with ((x :: ps) ++ ["coverage"; "go"; escaped])%list.
    rewrite join_app by discriminate. reflexivity.
Qed.

Lemma default_output_dir_string_witness :
  exists (path : Pathlib.PurePath),
    coverage_output_dir
      (with_template (str_default _coverage_output_dir_option))
      (mkDistDir (Pathlib.from_parts ["build/dist"])) "net/http" = Ok path
    /\ Pathlib.str path = "build/dist/coverage/go/net_http".
Proof.
  apply (default_output_dir_string
           (with_template (str_default _coverage_output_dir_option))
           (mkDistDir (Pathlib.from_parts ["build/dist"])) "net/http");
    reflexivity.
Defined.

(** X6.  Every path that the method returns is in the normal form of
    the path constructor, whatever the template, the distdir and the
    import path are: its root is empty, a slash or two slashes, and no
    other part is empty, a dot, or contains a slash. *)
Theorem output_path_normalised
    (self : GoTestSubsystem) (distdir : DistDir) (import_path : string)
    (path : Pathlib.PurePath) :
  coverage_output_dir self distdir import_path = Ok path ->
  normalised path = true.
Proof.
  unfold coverage_output_dir.
  destruct (str_format _ _) as [formatted| |]; cbn; [|discriminate..].
  intros H. injection H as <-. apply from_parts_normalised.
Qed.

Lemma output_path_normalised_witness :
  normalised
    {| Pathlib.root := "/";
       Pathlib.parts := ["/"; "tmp"; "dist"; "cov"; "a_b"] |} = true.
Proof.
  apply (output_path_normalised
           (with_template "{distdir}//cov/./{import_path_escaped}/")
           (mkDistDir (Pathlib.from_parts ["/tmp/dist"])) "a/b").
  vm_compute. reflexivity.
Defined.

(** X7.  A path that the method returns survives the round trip through
    its string: constructing a path from [str(path)] gives the same
    path. *)
Theorem output_path_round_trip
    (self : GoTestSubsystem) (distdir : DistDir) (import_path : string)
    (path : Pathlib.PurePath) :
  coverage_output_dir self distdir import_path = Ok path ->
  Pathlib.from_parts [Pathlib.str path] = path.
Proof.
  intros H. apply from_parts_str.
  unfold coverage_output_dir in H.
  destruct (str_format _ _) as [formatted| |]; cbn in H; [|discriminate..].
  injection H as <-. apply from_parts_normalised.
Qed.

Lemma output_path_round_trip_witness :
  Pathlib.from_parts
    [Pathlib.str
       {| Pathlib.root := EmptyString;
          Pathlib.parts := ["dist"; "coverage"; "go"; "net_http"] |}]
  = {| Pathlib.root := EmptyString;
       Pathlib.parts := ["dist"; "coverage"; "go"; "net_http"] |}.
Proof.
  apply (output_path_round_trip
           (with_template (str_default _coverage_output_dir_option))
           (mkDistDir (Pathlib.from_parts ["dist"])) "net/http").
  vm_compute. reflexivity.
Defined.

(** X8.  The placeholder [{distdir}] is replaced by the string of the
    distdir path: the expansion is the expansion of the text before it,
    [str(distdir.relpath)], and the expansion of the text after it. *)
Theorem distdir_placeholder_substituted
    (self : GoTestSubsystem) (distdir : DistDir)
    (import_path pre post before after : string) :
  _coverage_output_dir self
    = pre +:+ String "{" ("distdir" +:+ String "}" post) ->
  str_format pre
    (format_kwargs distdir (PyStr.replace import_path "/" "_")) = Ok before ->
  str_format post
    (format_kwargs distdir (PyStr.replace import_path "/" "_")) = Ok after ->
  coverage_output_dir self distdir import_path
  = Ok (Pathlib.from_parts
          [before +:+ Pathlib.str (relpath distdir) +:+ after]).
Proof.
  intros Htemplate Hpre Hpost. unfold coverage_output_dir.
  rewrite Htemplate.
  rewrite (str_format_placeholder _ pre "distdir" post before Hpre eq_refl).
  rewrite format_kwargs_distdir, Hpost. reflexivity.
Qed.

Lemma distdir_placeholder_substituted_witness :
  coverage_output_dir (with_template "out/{distdir}/go")
    (mkDistDir (Pathlib.from_parts [])) "a/b"
  = Ok (Pathlib.from_parts
          ["out/" +:+ Pathlib.str (Pathlib.from_parts []) +:+ "/go"]).
Proof.
  apply (distdir_placeholder_substituted
           (with_template "out/{distdir}/go")
           (mkDistDir (Pathlib.from_parts [])) "a/b" "out/" "/go" "out/" "/go");
    reflexivity.
Defined.



(** X10.  A closing brace in the template that is not doubled and closes
    no placeholder makes the call raise [ValueError], when the text
    before it expands without error. *)
Theorem lone_closing_brace_raises
    (self : GoTestSubsystem) (distdir : DistDir)
    (import_path pre post before : string) :
  _coverage_output_dir self = pre +:+ String "}" post ->
  str_format pre
    (format_kwargs distdir (PyStr.replace import_path "/" "_")) = Ok before ->
  String.prefix "}" post = false ->
  coverage_output_dir self distdir import_path
  = Raise (ValueError "Single '}' encountered in format string").
Proof.
  intros Htemplate Hpre Hpost. unfold coverage_output_dir.
  rewrite Htemplate, (str_format_app _ pre _ before Hpre).
  unfold str_format at 1. cbn [format_from Ascii.eqb Bool.eqb].
  destruct post as [|c post]; [reflexivity|].
  rewrite prefix_one_char in Hpost. now rewrite Hpost.
Qed.

Lemma lone_closing_brace_raises_witness :
  coverage_output_dir (with_template "{distdir}/cov}/x")
    (mkDistDir (Pathlib.from_parts ["dist"])) "a/b"
  = Raise (ValueError "Single '}' encountered in format string").
Proof.
  apply (lone_closing_brace_raises
           (with_template "{distdir}/cov}/x")
           (mkDistDir (Pathlib.from_parts ["dist"])) "a/b"
           "{distdir}/cov" "/x" "dist/cov").
  - reflexivity.
  - vm_compute. reflexivity.
  - reflexivity.
Defined.

(** X11.  A template that ends inside a placeholder, an opening brace
    followed by name characters only, makes the call raise [ValueError]
    when the text before the brace expands without error: a single
    opening brace at the very end, or a missing closing brace. *)
Theorem unterminated_placeholder_raises
    (self : GoTestSubsystem) (distdir : DistDir)
    (import_path pre name before : string) :
  _coverage_output_dir self = pre +:+ String "{" name ->
  str_format pre
    (format_kwargs distdir (PyStr.replace import_path "/" "_")) = Ok before ->
  name_chars name = true ->
  coverage_output_dir self distdir import_path
  = Raise (ValueError
             match name with
             | EmptyString => "Single '{' encountered in format string"
             | String _ _ => "expected '}' before end of string"
             end).
Proof.
  intros Htemplate Hpre Hname. unfold coverage_output_dir.
  rewrite Htemplate, (str_format_app _ pre _ before Hpre).
  unfold str_format at 1. cbn [format_from Ascii.eqb Bool.eqb].
  destruct name as [|c name]; [reflexivity|].
  assert (Hc : Ascii.eqb c "{" = false).
  { cbn [name_chars] in Hname. apply andb_true_iff in Hname as [Hc _].
    now apply name_char_inv in Hc. }
  rewrite Hc, (format_from_unterminated _ _ Hname). reflexivity.
Qed.

Lemma unterminated_placeholder_raises_witness :
  coverage_output_dir (with_template "{distdir}/{import_path_escaped")
    (mkDistDir (Pathlib.from_parts ["dist"])) "a/b"
  = Raise (ValueError "expected '}' before end of string").
Proof.
  apply (unterminated_placeholder_raises
           (with_template "{distdir}/{import_path_escaped")
           (mkDistDir (Pathlib.from_parts ["dist"])) "a/b"
           "{distdir}/" "import_path_escaped" "dist/").
  - reflexivity.
  - vm_compute. reflexivity.
  - reflexivity.
Defined.

(** X12.  A positional placeholder never gives a path, since the call
    passes keyword arguments only.  When the text before it expands
    without error, an empty name raises [IndexError] for index 0, and a
    name written in digits raises [IndexError] for the number it writes
    when that is at most [PY_SSIZE_T_MAX], and [ValueError] for too many
    digits when it is more. *)
Theorem positional_placeholder_raises
    (self : GoTestSubsystem) (distdir : DistDir)
    (import_path pre name post before : string) :
  _coverage_output_dir self = pre +:+ String "{" (name +:+ String "}" post) ->
  str_format pre
    (format_kwargs distdir (PyStr.replace import_path "/" "_")) = Ok before ->
  all_digits name = true ->
  coverage_output_dir self distdir import_path
  = Raise
      match name with
      | EmptyString => IndexError 0
      | String _ _ =>
          if (decimal_value name <=? PY_SSIZE_T_MAX)%N
          then IndexError (decimal_value name)
          else ValueError "Too many decimal digits in format string"
      end.
Proof.
  intros Htemplate Hpre Hname.
  assert (H : coverage_output_dir self distdir import_path
              = _ ← render_field
                      (format_kwargs distdir (PyStr.replace import_path "/" "_"))
                      name;
                Unmodelled).
  { unfold coverage_output_dir.
    rewrite Htemplate, (str_format_app _ pre _ before Hpre).
    unfold str_format at 1. cbn [format_from Ascii.eqb Bool.eqb].
    rewrite (render_field_positional _ name Hname).
    destruct name as [|c name].
    - rewrite append_empty_l. cbn [format_from Ascii.eqb Bool.eqb].
      reflexivity.
    - rewrite append_cons.
      assert (Hc : Ascii.eqb c "{" = false).
      { apply all_digits_name_chars in Hname. cbn [name_chars] in Hname.
        apply andb_true_iff in Hname as [Hc _]. now apply name_char_inv in Hc. }
      rewrite Hc, <- append_cons.
      rewrite (format_from_name _ _ (all_digits_name_chars _ Hname)).
      rewrite append_empty_l, (render_field_positional _ _ Hname).
      destruct (get_integer (String c name)); reflexivity. }
  rewrite H, (render_field_positional _ name Hname).
  destruct name as [|c name]; [reflexivity|].
  unfold get_integer, decimal_value.
  rewrite (get_integer_from_value (String c name) Hname 0%N)
    by (unfold PY_SSIZE_T_MAX; lia).
  now destruct (_ <=? _)%N.
Qed.

Lemma positional_placeholder_raises_witness :
  coverage_output_dir (with_template "{distdir}/{}")
    (mkDistDir (Pathlib.from_parts ["dist"])) "a/b"
  = Raise (IndexError 0)
  /\ coverage_output_dir (with_template "{distdir}/{007}")
       (mkDistDir (Pathlib.from_parts ["dist"])) "a/b"
     = Raise (IndexError 7)
  /\ coverage_output_dir (with_template "{distdir}/{9223372036854775808}")
       (mkDistDir (Pathlib.from_parts ["dist"])) "a/b"
     = Raise (ValueError "Too many decimal digits in format string").
Proof.
  split; [|split].
  - apply (positional_placeholder_raises
             (with_template "{distdir}/{}")
             (mkDistDir (Pathlib.from_parts ["dist"])) "a/b"
             "{distdir}/" EmptyString EmptyString "dist/").
    + reflexivity.
    + vm_compute. reflexivity.
    + reflexivity.
  - apply (positional_placeholder_raises
             (with_template "{distdir}/{007}")
             (mkDistDir (Pathlib.from_parts ["dist"])) "a/b"
             "{distdir}/" "007" EmptyString "dist/").
    + reflexivity.
    + vm_compute. reflexivity.
    + reflexivity.
  - apply (positional_placeholder_raises
             (with_template "{distdir}/{9223372036854775808}")
             (mkDistDir (Pathlib.from_parts ["dist"])) "a/b"
             "{distdir}/" "9223372036854775808" EmptyString "dist/").
    + reflexivity.
    + vm_compute. reflexivity.
    + reflexivity.
Defined.

(** X13.  Escaping is idempotent: an import path that is already escaped
    is left as it is, so the method returns the same for an import path
    and for its escaped form. *)
Theorem escaping_idempotent
    (self : GoTestSubsystem) (distdir : DistDir) (import_path : string) :
  PyStr.replace (PyStr.replace import_path "/" "_") "/" "_"
    = PyStr.replace import_path "/" "_"
  /\ coverage_output_dir self distdir (PyStr.replace import_path "/" "_")
     = coverage_output_dir self distdir import_path.
Proof.
  assert (H : PyStr.replace (PyStr.replace import_path "/" "_") "/" "_"
              = PyStr.replace import_path "/" "_").
  { apply replace_absent, replace_removes. discriminate. }
  split; [exact H|]. unfold coverage_output_dir. now rewrite H.
Qed.

(** X14.  Escaping goes through concatenation: the escaped import path of
    a sub-package is the escaped import path of its parent, an
    underscore, and the escaped rest. *)
Theorem escaping_of_subpackage (parent child : string) :
  PyStr.replace (parent +:+ "/" +:+ child) "/" "_"
  = PyStr.replace parent "/" "_" +:+ "_" +:+ PyStr.replace child "/" "_".
Proof.
  rewrite escape_app.
  change ("/" +:+ child) with (String "/" child).
  now rewrite escape_cons.
Qed.
